(** * invoice-backend: the OAuth code / token lifecycle

    A shallow embedding of the parts of the Express backend that track
    single-use authorization codes, keep Xero tokens in memory and
    authenticate requests:

    - [src/services/tokenStore.js]: module [TokenStore];
    - the middleware [authenticateToken], whose text follows the router in
      [src/routes/auth.js]: module [Middleware];
    - [src/routes/xero.js]: module [Xero]; of the two routers the file
      holds, the first, which owns [usedCodes].

    Conventions of the embedding.
    - A JavaScript string is a [string] (its UTF-8 bytes); a property that may
      be [undefined] is an [option]; [truthy_str] is JavaScript truthiness of
      such a property (absent and the empty string are falsy).
    - [Date.now()] is an integer number of milliseconds, a [Z]; every reading
      of the clock is an argument of the function that reads it.
    - An arithmetic result that may be [NaN] is a [js_num].
    - The process-wide [Map] and [Set] are a [gmap] and a [gset], threaded
      through the functions that touch them.
    - Loggers, request ids and response timestamps are left out. *)

From Stdlib Require Import ZArith Ascii String List Bool Lia.
From stdpp Require Import base option strings gmap.
Import ListNotations.

Local Open Scope string_scope.
Local Open Scope Z_scope.

(** ** JavaScript values that the modelled code manipulates *)

Inductive js_num : Type :=
| Num (z : Z)
| NaN.

(** [a + b] and [a * b] on numbers: [NaN] is absorbing. *)
Definition js_add (a b : js_num) : js_num :=
  match a, b with
  | Num x, Num y => Num (x + y)
  | _, _ => NaN
  end.

Definition js_mul (a b : js_num) : js_num :=
  match a, b with
  | Num x, Num y => Num (x * y)
  | _, _ => NaN
  end.

(** [a >= b]: every comparison with [NaN] is false. *)
Definition js_ge (a b : js_num) : bool :=
  match a, b with
  | Num x, Num y => x >=? y
  | _, _ => false
  end.

Definition js_lt (a b : js_num) : bool :=
  match a, b with
  | Num x, Num y => x <? y
  | _, _ => false
  end.

(** A numeric property that may be absent: [undefined] converts to [NaN]. *)
Definition to_number (n : option Z) : js_num :=
  match n with
  | Some z => Num z
  | None => NaN
  end.

(** Values that a function of the model may hand back untyped. *)
Inductive js_value : Type :=
| JUndefined
| JBool (b : bool)
| JStr (s : string).

Definition truthy (v : js_value) : bool :=
  match v with
  | JUndefined => false
  | JBool b => b
  | JStr s => negb (String.eqb s "")
  end.

Definition of_property (p : option string) : js_value :=
  match p with
  | Some s => JStr s
  | None => JUndefined
  end.

Definition truthy_str (p : option string) : bool := truthy (of_property p).

Definition truthy_num (n : option Z) : bool :=
  match n with
  | Some z => negb (z =? 0)
  | None => false
  end.

(** [a || b] on optional strings and on optional numbers. *)
Definition or_str (a b : option string) : option string :=
  if truthy_str a then a else b.

Definition or_num (a : option Z) (b : Z) : option Z :=
  if truthy_num a then a else Some b.

(** ** src/services/tokenStore.js *)

Module TokenStore.

(** The [tokens] argument of [storeUserTokens]. *)
Record Tokens : Type := mkTokens {
  access_token : option string;
  refresh_token : option string;
  expires_in : option Z;
  tenant_id : option string
}.

(** The object kept in the map. *)
Record Stored : Type := mkStored {
  s_access_token : option string;
  s_refresh_token : option string;
  expires_at : js_num;
  s_tenant_id : option string;
  stored_at : Z
}.

Abbreviation Store := (gmap string Stored).

(** [storeUserTokens]: [now_e] and [now_s] are the two clock readings, in
    the order of the object literal. *)
Definition storeUserTokens (now_e now_s : Z) (userId : string)
    (tokens : Tokens) (tokenStore : Store) : Store :=
  <[userId := {| s_access_token := access_token tokens;
                 s_refresh_token := refresh_token tokens;
                 expires_at :=
                   js_add (Num now_e)
                          (js_mul (to_number (expires_in tokens)) (Num 1000));
                 s_tenant_id := tenant_id tokens;
                 stored_at := now_s |}]> tokenStore.

Definition clearUserTokens (userId : string) (tokenStore : Store) : Store :=
  delete userId tokenStore.

(** [getUserTokens]: [None] is the [null] result. *)
Definition getUserTokens (now : Z) (userId : string) (tokenStore : Store)
    : option Stored * Store :=
  match tokenStore !! userId with
  | None => (None, tokenStore)
  | Some tokens =>
      if js_ge (Num now) (expires_at tokens)
      then (None, clearUserTokens userId tokenStore)
      else (Some tokens, tokenStore)
  end.

(** [hasValidTokens]: [tokens !== null && tokens.access_token]. *)
Definition hasValidTokens (now : Z) (userId : string) (tokenStore : Store)
    : js_value * Store :=
  let '(tokens, tokenStore') := getUserTokens now userId tokenStore in
  (match tokens with
   | None => JBool false
   | Some t => of_property (s_access_token t)
   end, tokenStore').

Definition getAccessToken (now : Z) (userId : string) (tokenStore : Store)
    : option string * Store :=
  let '(tokens, tokenStore') := getUserTokens now userId tokenStore in
  (match tokens with
   | None => None
   | Some t => s_access_token t
   end, tokenStore').

Definition getTenantId (now : Z) (userId : string) (tokenStore : Store)
    : option string * Store :=
  let '(tokens, tokenStore') := getUserTokens now userId tokenStore in
  (match tokens with
   | None => None
   | Some t => s_tenant_id t
   end, tokenStore').

(** [listAllTokens]: the redacted summary. The two dates are kept as the
    time values their ISO strings are rendered from. *)
Record Summary : Type := mkSummary {
  hasAccessToken : bool;
  hasRefreshToken : bool;
  expiresAt : js_num;
  tenantId : option string;
  storedAt : Z
}.

(** [new Date(value).toISOString()] throws a [RangeError] unless [value] is
    a time value: a number within 8.64e15 milliseconds of the epoch. *)
Definition valid_time_value (value : js_num) : bool :=
  match value with
  | Num z => (-8640000000000000 <=? z) && (z <=? 8640000000000000)
  | NaN => false
  end.

Definition summary (tokens : Stored) : Summary :=
  {| hasAccessToken := truthy_str (s_access_token tokens);
     hasRefreshToken := truthy_str (s_refresh_token tokens);
     expiresAt := expires_at tokens;
     tenantId := s_tenant_id tokens;
     storedAt := stored_at tokens |}.

Definition renders (tokens : Stored) : Prop :=
  valid_time_value (expires_at tokens) = true
  /\ valid_time_value (Num (stored_at tokens)) = true.

(** [None] is the [RangeError] that leaves the loop at the first record
    whose dates cannot be rendered. The assignment [result[userId] = ...]
    on the object literal makes an own property for every key but
    ["__proto__"], for which it sets the prototype and lists nothing. *)
Definition listAllTokens (tokenStore : Store) : option (gmap string Summary) :=
  if decide (map_Forall (fun _ tokens => renders tokens) tokenStore)
  then Some (delete "__proto__" (summary <$> tokenStore))
  else None.

(** A record is expired at [now] when the comparison of the source holds. *)
Definition expired (now : Z) (r : Stored) : Prop :=
  js_ge (Num now) (expires_at r) = true.

Definition unexpired (now : Z) (r : Stored) : Prop :=
  js_lt (Num now) (expires_at r) = true.

End TokenStore.

(** ** Strings: the JavaScript methods the routes call *)

(** [s.substring(from, to)] for [from <= to]; out-of-range indices clamp. *)
Definition js_substring (s : string) (from to : nat) : string :=
  String.substring from (to - from) s.

(** [s.length]: the number of UTF-16 code units of the string whose UTF-8
    bytes are [s]. A continuation byte adds nothing, the lead byte of a
    four-byte sequence stands for a surrogate pair, every other byte for one
    unit. *)
Definition utf16_units (c : ascii) : nat :=
  let n := Z.of_N (N_of_ascii c) in
  if (128 <=? n) && (n <? 192) then 0%nat
  else if 240 <=? n then 2%nat
  else 1%nat.

Fixpoint js_length (s : string) : nat :=
  match s with
  | EmptyString => 0%nat
  | String c s' => (utf16_units c + js_length s')%nat
  end.

(** [hay.includes(needle)]. *)
Fixpoint includes (hay needle : string) : bool :=
  if String.prefix needle hay then true
  else match hay with
       | EmptyString => false
       | String _ hay' => includes hay' needle
       end.

(** [s.split(' ')]. *)
Fixpoint split_space (s : string) : list string :=
  match s with
  | EmptyString => [EmptyString]
  | String c s' =>
      if Ascii.eqb c " "%char then EmptyString :: split_space s'
      else match split_space s' with
           | h :: t => String c h :: t
           | [] => [String c EmptyString]
           end
  end.

(** The [application/x-www-form-urlencoded] serializer behind
    [URLSearchParams]: letters, digits and [* - . _] stay, a space becomes
    [+], any other byte becomes [%XX] in upper-case hexadecimal. *)
Definition form_safe (c : ascii) : bool :=
  let n := Z.of_N (N_of_ascii c) in
  (n =? 42) || (n =? 45) || (n =? 46) || (n =? 95)
  || ((48 <=? n) && (n <=? 57))
  || ((65 <=? n) && (n <=? 90))
  || ((97 <=? n) && (n <=? 122)).

Definition hex_digit (n : Z) : ascii :=
  match String.get (Z.to_nat n) "0123456789ABCDEF" with
  | Some c => c
  | None => "0"%char
  end.

Definition urlencode_byte (c : ascii) : string :=
  let n := Z.of_N (N_of_ascii c) in
  if form_safe c then String c EmptyString
  else if n =? 32 then "+"
  else String "%"%char
         (String (hex_digit (n / 16)) (String (hex_digit (n mod 16)) EmptyString)).

Fixpoint urlencode (s : string) : string :=
  match s with
  | EmptyString => EmptyString
  | String c s' => urlencode_byte c +:+ urlencode s'
  end.

Definition serialize_pair (kv : string * string) : string :=
  urlencode (fst kv) +:+ "=" +:+ urlencode (snd kv).

Fixpoint serialize_params (params : list (string * string)) : string :=
  match params with
  | [] => EmptyString
  | [kv] => serialize_pair kv
  | kv :: rest => serialize_pair kv +:+ "&" +:+ serialize_params rest
  end.

(** [url.toString()] of a URL without query to which [searchParams.append]
    added [params], in order. *)
Definition url_with_params (base : string) (params : list (string * string))
    : string :=
  match params with
  | [] => base
  | _ => base +:+ "?" +:+ serialize_params params
  end.

(** ** The middleware of src/routes/auth.js *)

Module Middleware.

(** The claims of a decoded token that the middleware reads. *)
Record Payload : Type := mkPayload {
  iss : option string;
  aud : option string;
  exp : option Z;
  email : option string;
  sub : option string;
  xero_userid : option string
}.

(** [req.user]: the payload spread, with [email], [id] and [sub] set. *)
Record User : Type := mkUser {
  claims : Payload;
  user_email : option string;
  user_id : option string;
  user_sub : option string
}.

Inductive Outcome : Type :=
| Rejected (status : Z) (error : string)
| Next (user : User).

Definition AccessTokenRequired : string := "Access token required".
Definition InvalidTokenFormat : string := "Invalid token format".
Definition TokenExpired : string := "Token has expired".
Definition MissingUserIdentifierXero : string :=
  "Invalid Xero token - missing user identifier".
Definition MissingUserIdentifier : string :=
  "Invalid token - missing user identifier".

Definition is_missing_user_identifier (o : Outcome) : bool :=
  match o with
  | Rejected 403 e =>
      String.eqb e MissingUserIdentifierXero || String.eqb e MissingUserIdentifier
  | _ => false
  end.

(** [authHeader && authHeader.split(' ')[1]]. *)
Definition bearer_token (authHeader : option string) : option string :=
  match authHeader with
  | Some h => if truthy_str (Some h) then nth_error (split_space h) 1 else None
  | None => None
  end.

(** [payload.exp && Date.now() >= payload.exp * 1000]. *)
Definition exp_check (now : Z) (payload : Payload) : bool :=
  truthy_num (exp payload)
  && js_ge (Num now) (js_mul (to_number (exp payload)) (Num 1000)).

(** [payload.iss && payload.iss.includes('xero')]. *)
Definition is_xero (payload : Payload) : bool :=
  match iss payload with
  | Some i => truthy_str (Some i) && includes i "xero"
  | None => false
  end.

(** The preference order of the identifiers, spelled out: [email], else
    [sub], else [xero_userid]. *)
Definition first_identifier (payload : Payload) : option string :=
  if truthy_str (email payload) then email payload
  else if truthy_str (sub payload) then sub payload
  else xero_userid payload.

(** The body of the function after the payload is in hand. *)
Definition check_payload (now : Z) (payload : Payload) : Outcome :=
  if negb (truthy_str (iss payload)) || negb (truthy_str (aud payload))
  then Rejected 403 InvalidTokenFormat
  else if exp_check now payload
  then Rejected 403 TokenExpired
  else
    let accept userIdentifier :=
      Next {| claims := payload;
              user_email := or_str (email payload) userIdentifier;
              user_id := userIdentifier;
              user_sub := or_str (sub payload) userIdentifier |} in
    if is_xero payload then
      let userIdentifier :=
        or_str (or_str (email payload) (sub payload)) (xero_userid payload) in
      if negb (truthy_str userIdentifier)
      then Rejected 403 MissingUserIdentifierXero
      else accept userIdentifier
    else
      let userIdentifier := or_str (email payload) (sub payload) in
      if negb (truthy_str userIdentifier)
      then Rejected 403 MissingUserIdentifier
      else accept userIdentifier.

Section Authenticate.

(** [jwt.decode(token, { complete: true })] of the jsonwebtoken package,
    projected on [.payload]; [None] when it yields [null]. *)
Variable jwt_decode : string -> option Payload.

Definition authenticateToken (now : Z) (authHeader : option string)
    : Outcome :=
  let token := bearer_token authHeader in
  if negb (truthy_str token) then Rejected 401 AccessTokenRequired
  else
    match token with
    | None => Rejected 401 AccessTokenRequired
    | Some tok =>
        match jwt_decode tok with
        | None => Rejected 403 InvalidTokenFormat
        | Some payload => check_payload now payload
        end
    end.

End Authenticate.

End Middleware.

(** ** src/routes/xero.js *)

Module Xero.

(** [process.env], the variables the routes read. *)
Record Env : Type := mkEnv {
  XERO_CLIENT_ID : option string;
  XERO_CLIENT_SECRET : option string;
  XERO_CALLBACK_URL : option string;
  XERO_SCOPES : option string;
  XERO_TENANT_ID : option string
}.

(** The two module-level stores a request can touch. *)
Record Server : Type := mkServer {
  usedCodes : gset string;
  tokenStore : gmap string TokenStore.Stored
}.

Definition initial : Server := {| usedCodes := ∅; tokenStore := ∅ |}.

(** The [setInterval] callback: [usedCodes.clear()]. *)
Definition sweep (srv : Server) : Server :=
  {| usedCodes := ∅; tokenStore := tokenStore srv |}.

Definition codeCleanupInterval : Z := 10 * 60 * 1000.

(** *** What the identity provider answers *)

(** [response.data] of a successful token exchange. *)
Record TokenData : Type := mkTokenData {
  access_token : option string;
  refresh_token : option string;
  id_token : option string;
  expires_in : option Z;
  token_type : option string
}.

(** [error.response.data] and the axios error around it. *)
Record ErrorData : Type := mkErrorData {
  error : option string;
  error_description : option string
}.

Record ErrorResponse : Type := mkErrorResponse {
  http_status : Z;
  data : option ErrorData
}.

Record AxiosError : Type := mkAxiosError {
  response : option ErrorResponse;
  request : bool
}.

Inductive Exchange : Type :=
| Resolved (d : TokenData)
| Thrown (e : AxiosError).

(** The POST to [https://identity.xero.com/connect/token]: the form fields
    and the two halves of the Basic credential. *)
Record TokenRequest : Type := mkTokenRequest {
  grant_type : string;
  code : string;
  redirect_uri : string;
  basic_user : string;
  basic_password : string
}.

Record Tenant : Type := mkTenant { tenantId : option string }.

(** The claims read from a decoded [id_token]. *)
Record UserInfo : Type := mkUserInfo {
  email : option string;
  sub : option string
}.

(** The collaborators of one POST /callback: the token endpoint, the
    connections endpoint ([None] when the GET throws) and the decoding of
    the [id_token] payload ([None] when [user_info] stays [null]). *)
Record Upstream : Type := mkUpstream {
  token_endpoint : TokenRequest -> Exchange;
  connections : option string -> option (list Tenant);
  decode_id_token : string -> option UserInfo
}.

(** *** Responses *)

Inductive Body : Type :=
| ErrorBody (error : string) (details : option string)
| AuthBody (authUrl state : string)
| TokensBody (d : TokenData) (user_info : option UserInfo)
             (tenants : list Tenant) (userId : option string)
| SuccessBody (message : string)
| StatusBody (hasValidTokens : js_value) (userId : string).

Record Response : Type := mkResponse {
  status : Z;
  body : Body
}.

Definition MissingCode : string := "No authorization code provided".
Definition CodeAlreadyUsed : string :=
  "Authorization code has already been used".
Definition MalformedCode : string := "Invalid authorization code format".
Definition ServerMisconfigured : string :=
  "Server configuration error - missing environment variables".

Definition code_already_used : Response :=
  {| status := 400;
     body := ErrorBody CodeAlreadyUsed
               (Some "Please restart the OAuth flow to get a new authorization code") |}.

Definition malformed_code : Response :=
  {| status := 400; body := ErrorBody MalformedCode None |}.

Definition is_success (r : Response) : bool :=
  match body r with
  | TokensBody _ _ _ _ => status r =? 200
  | _ => false
  end.

(** *** GET /auth *)

Definition authorize_endpoint : string :=
  "https://login.xero.com/identity/connect/authorize".

Definition default_scopes : string :=
  "openid profile email offline_access accounting.transactions accounting.contacts accounting.attachments accounting.settings.read accounting.reports.read".

(** [process.env.XERO_SCOPES || '...']. *)
Definition requested_scopes (env : Env) : string :=
  match or_str (XERO_SCOPES env) (Some default_scopes) with
  | Some s => s
  | None => default_scopes
  end.

(** [r1] and [r2] are the two values of [Math.random().toString(36)]. *)
Definition make_state (r1 r2 : string) : string :=
  js_substring r1 2 15 +:+ js_substring r2 2 15.

Definition auth (env : Env) (r1 r2 : string) : Response :=
  match XERO_CLIENT_ID env, XERO_CALLBACK_URL env with
  | Some client_id, Some callback_url =>
      if negb (truthy_str (Some client_id))
         || negb (truthy_str (Some callback_url))
      then {| status := 500;
              body := ErrorBody
                "Server configuration error - missing OAuth credentials" None |}
      else
        let state := make_state r1 r2 in
        let scopes := requested_scopes env in
        let authUrl :=
          url_with_params authorize_endpoint
            [("response_type", "code");
             ("client_id", client_id);
             ("redirect_uri", callback_url);
             ("scope", scopes);
             ("state", state)] in
        {| status := 200; body := AuthBody authUrl state |}
  | _, _ =>
      {| status := 500;
         body := ErrorBody
           "Server configuration error - missing OAuth credentials" None |}
  end.

(** *** POST /callback *)

Record CallbackBody : Type := mkCallbackBody {
  req_code : option string;
  req_state : option string
}.

Definition missing_code : Response :=
  {| status := 400; body := ErrorBody MissingCode None |}.

Definition misconfigured : Response :=
  {| status := 500; body := ErrorBody ServerMisconfigured None |}.

(** [!client_id || !client_secret || !callback_url] is false. *)
Definition configured (env : Env) : option (string * string * string) :=
  match XERO_CLIENT_ID env, XERO_CLIENT_SECRET env, XERO_CALLBACK_URL env with
  | Some client_id, Some client_secret, Some callback_url =>
      if negb (truthy_str (Some client_id))
         || negb (truthy_str (Some client_secret))
         || negb (truthy_str (Some callback_url))
      then None
      else Some (client_id, client_secret, callback_url)
  | _, _, _ => None
  end.

(** [error.response?.data?.error]. *)
Definition response_data_error (e : AxiosError) : option string :=
  match response e with
  | Some r => match data r with
              | Some d => error d
              | None => None
              end
  | None => None
  end.

(** [error.response?.data?.error !== 'invalid_grant']. *)
Definition not_invalid_grant (e : AxiosError) : bool :=
  match response_data_error e with
  | Some err => negb (String.eqb err "invalid_grant")
  | None => true
  end.

Definition newline : string := String (ascii_of_nat 10) EmptyString.

(** String concatenation with a variable that may be [undefined]. *)
Definition show (p : option string) : string :=
  match p with
  | Some s => s
  | None => "undefined"
  end.

(** The [switch (xeroError.error)] of the catch handler. *)
Definition explain (env : Env) (err : string) (d : ErrorData)
    : string * option string :=
  if String.eqb err "unauthorized_client" then
    ("Xero App Configuration Error",
     Some ("Your Xero app credentials or redirect URI configuration is incorrect. Please check:"
           +:+ newline +:+ "1. Client ID and Secret are correct"
           +:+ newline +:+ "2. Redirect URI in Xero app matches: "
           +:+ show (XERO_CALLBACK_URL env)
           +:+ newline +:+ "3. App has required scopes enabled"
           +:+ newline +:+ "4. App is published/approved if required"))
  else if String.eqb err "invalid_grant" then
    ("Authorization Code Error",
     Some "The authorization code is invalid, expired, or already used. Please restart the OAuth flow.")
  else if String.eqb err "invalid_client" then
    ("Invalid Client Credentials",
     Some "Your Xero Client ID or Secret is incorrect. Please verify your credentials.")
  else if String.eqb err "invalid_request" then
    ("Invalid OAuth Request",
     Some "The OAuth request format is incorrect. This is likely a server configuration issue.")
  else (err, or_str (error_description d) (Some "Unknown error")).

Definition token_exchange_failed : Response :=
  {| status := 500; body := ErrorBody "Token exchange failed" None |}.

(** The status-code branches that follow the [xeroError] block. *)
Definition by_status (r : ErrorResponse) : Response :=
  if http_status r =? 400 then
    {| status := 400;
       body := ErrorBody "Bad Request - OAuth Configuration Issue"
                 (Some "Please check your Xero app configuration and ensure the redirect URI matches exactly") |}
  else if http_status r =? 401 then
    {| status := 401;
       body := ErrorBody "Unauthorized - Invalid client credentials"
                 (Some "Check your XERO_CLIENT_ID and XERO_CLIENT_SECRET") |}
  else token_exchange_failed.

Definition error_response (env : Env) (e : AxiosError) : Response :=
  match response e with
  | Some r =>
      match data r with
      | Some d =>
          match error d with
          | Some err =>
              if truthy_str (Some err) then
                let '(errorMessage, details) := explain env err d in
                {| status := 400; body := ErrorBody errorMessage details |}
              else by_status r
          | None => by_status r
          end
      | None => by_status r
      end
  | None =>
      if request e then
        {| status := 503;
           body := ErrorBody
             "Service unavailable - Could not reach Xero token endpoint" None |}
      else token_exchange_failed
  end.

(** [usedCodes.add(code)] and [usedCodes.delete(code)]. *)
Definition marked (c : string) (srv : Server) : Server :=
  {| usedCodes := {[c]} ∪ usedCodes srv; tokenStore := tokenStore srv |}.

Definition unmarked (c : string) (srv : Server) : Server :=
  {| usedCodes := usedCodes srv ∖ {[c]}; tokenStore := tokenStore srv |}.

(** The catch handler: unmark unless the provider said [invalid_grant]. *)
Definition exchange_failed (env : Env) (c : string) (e : AxiosError)
    (srv : Server) : Response * Server :=
  let srv' :=
    if truthy_str (Some c) && not_invalid_grant e
    then unmarked c srv
    else srv in
  (error_response env e, srv').

(** [sub !== email]. *)
Definition differs (sub : string) (email : option string) : bool :=
  match email with
  | Some e => negb (String.eqb sub e)
  | None => true
  end.

(** The storing of the tokens under [email] and under [sub]; [now k] is
    the [k]-th clock reading taken by the token store. *)
Definition persist (env : Env) (now : nat -> Z) (d : TokenData)
    (user_info : option UserInfo) (tenants : list Tenant)
    (store : gmap string TokenStore.Stored)
    : option string * gmap string TokenStore.Stored :=
  match user_info with
  | Some ui =>
      if truthy_str (email ui) || truthy_str (sub ui) then
        let tokensToStore :=
          {| TokenStore.access_token := access_token d;
             TokenStore.refresh_token := refresh_token d;
             TokenStore.expires_in := expires_in d;
             TokenStore.tenant_id :=
               match tenants with
               | t :: _ => tenantId t
               | [] => XERO_TENANT_ID env
               end |} in
        let store1 :=
          match email ui with
          | Some e =>
              if truthy_str (Some e)
              then TokenStore.storeUserTokens (now 0%nat) (now 1%nat) e
                     tokensToStore store
              else store
          | None => store
          end in
        let store2 :=
          match sub ui with
          | Some s =>
              if truthy_str (Some s) && differs s (email ui)
              then TokenStore.storeUserTokens (now 2%nat) (now 3%nat) s
                     tokensToStore store1
              else store1
          | None => store1
          end in
        (or_str (email ui) (sub ui), store2)
      else (None, store)
  | None => (None, store)
  end.

(** The try block after the token endpoint answered. *)
Definition exchange_succeeded (env : Env) (up : Upstream) (now : nat -> Z)
    (d : TokenData) (srv : Server) : Response * Server :=
  let user_info :=
    match id_token d with
    | Some t => if truthy_str (Some t) then decode_id_token up t else None
    | None => None
    end in
  let tenants :=
    match connections up (access_token d) with
    | Some ts => ts
    | None => []
    end in
  let '(userId, store') := persist env now d user_info tenants (tokenStore srv) in
  ({| status := 200; body := TokensBody d user_info tenants userId |},
   {| usedCodes := usedCodes srv; tokenStore := store' |}).

(** The handler: the response, the stores afterwards, and the requests
    sent to the token endpoint. *)
Definition callback (env : Env) (up : Upstream) (now : nat -> Z)
    (req : CallbackBody) (srv : Server)
    : Response * Server * list TokenRequest :=
  match req_code req with
  | None => (missing_code, srv, [])
  | Some c =>
      if negb (truthy_str (Some c)) then (missing_code, srv, [])
      else if bool_decide (c ∈ usedCodes srv) then (code_already_used, srv, [])
      else
        let srv1 := marked c srv in
        if (js_length c <? 10)%nat then (malformed_code, srv1, [])
        else
          match configured env with
          | None => (misconfigured, srv1, [])
          | Some (client_id, client_secret, callback_url) =>
              let tokenData :=
                {| grant_type := "authorization_code";
                   code := c;
                   redirect_uri := callback_url;
                   basic_user := client_id;
                   basic_password := client_secret |} in
              match token_endpoint up tokenData with
              | Resolved d =>
                  let '(res, srv2) := exchange_succeeded env up now d srv1 in
                  (res, srv2, [tokenData])
              | Thrown e =>
                  let '(res, srv2) := exchange_failed env c e srv1 in
                  (res, srv2, [tokenData])
              end
          end
  end.

(** The call went to the token endpoint and was answered by an error
    other than [invalid_grant]: the case in which the catch handler takes
    the code out of [usedCodes]. *)
Definition retryable_failure (up : Upstream) (calls : list TokenRequest)
    : bool :=
  match calls with
  | [tokenData] =>
      match token_endpoint up tokenData with
      | Thrown e => not_invalid_grant e
      | Resolved _ => false
      end
  | _ => false
  end.

(** *** POST /store-tokens and GET /tokens/status *)

Record StoreTokensBody : Type := mkStoreTokensBody {
  st_userId : option string;
  st_access_token : option string;
  st_refresh_token : option string;
  st_expires_in : option Z;
  st_tenant_id : option string
}.

Definition store_tokens (env : Env) (now_e now_s : Z)
    (req : StoreTokensBody) (srv : Server) : Response * Server :=
  match st_userId req with
  | Some userId =>
      if negb (truthy_str (Some userId))
         || negb (truthy_str (st_access_token req))
      then ({| status := 400;
               body := ErrorBody "userId and access_token are required" None |},
            srv)
      else
        let tokensToStore :=
          {| TokenStore.access_token := st_access_token req;
             TokenStore.refresh_token := st_refresh_token req;
             TokenStore.expires_in := or_num (st_expires_in req) 1800;
             TokenStore.tenant_id :=
               or_str (st_tenant_id req) (XERO_TENANT_ID env) |} in
        ({| status := 200; body := SuccessBody "Tokens stored successfully" |},
         {| usedCodes := usedCodes srv;
            tokenStore :=
              TokenStore.storeUserTokens now_e now_s userId tokensToStore
                (tokenStore srv) |})
  | None =>
      ({| status := 400;
          body := ErrorBody "userId and access_token are required" None |},
       srv)
  end.

Definition tokens_status (now : Z) (userId : option string) (srv : Server)
    : Response * Server :=
  match userId with
  | Some u =>
      if negb (truthy_str (Some u))
      then ({| status := 400; body := ErrorBody "userId is required" None |}, srv)
      else
        let '(hasValidTokens, store') :=
          TokenStore.hasValidTokens now u (tokenStore srv) in
        ({| status := 200; body := StatusBody hasValidTokens u |},
         {| usedCodes := usedCodes srv; tokenStore := store' |})
  | None =>
      ({| status := 400; body := ErrorBody "userId is required" None |}, srv)
  end.

(** *** The runs of the server *)

(** [usedCodes] is private to the router: a POST /callback and the sweep
    are all that write it. The token store is shared with the other routes,
    which may store, evict or clear at will. *)
Inductive step : Server -> Server -> Prop :=
| step_callback env up now req srv :
    step srv (snd (fst (callback env up now req srv)))
| step_sweep srv :
    step srv (sweep srv)
| step_store_tokens env now_e now_s req srv :
    step srv (snd (store_tokens env now_e now_s req srv))
| step_tokens_status now userId srv :
    step srv (snd (tokens_status now userId srv))
| step_token_store store' srv :
    step srv {| usedCodes := usedCodes srv; tokenStore := store' |}.

Inductive reachable : Server -> Prop :=
| reachable_initial : reachable initial
| reachable_step srv srv' : reachable srv -> step srv srv' -> reachable srv'.

End Xero.

(** ** The routes behind the middleware, and the invoice service *)

(** Occurrences of a character, to count the separators of a URL and the
    spaces of a header. *)
Fixpoint count_char (c : ascii) (s : string) : nat :=
  match s with
  | EmptyString => 0%nat
  | String x s' => ((if Ascii.eqb x c then 1 else 0) + count_char c s')%nat
  end.

Module Routes.

Import TokenStore Middleware.

(** [req.user.email || req.user.sub || req.user.id], the first line of
    every authenticated handler. *)
Definition request_user_id (user : User) : option string :=
  or_str (or_str (user_email user) (user_sub user)) (user_id user).

(** GET /status of routes/auth.js. [name] is the [name] claim, which the
    middleware spreads into [req.user] untouched. *)
Record AuthStatus : Type := mkAuthStatus {
  authenticated : bool;
  hasXeroTokens : js_value;
  status_id : option string;
  status_email : option string;
  status_name : option string
}.

Definition status (now : Z) (user : User) (name : option string)
    (tokenStore : Store) : AuthStatus * Store :=
  let userId := request_user_id user in
  let '(hasXeroTokens, tokenStore') :=
    match userId with
    | Some u => hasValidTokens now u tokenStore
    | None => (JBool false, tokenStore)
    end in
  ({| authenticated := true;
      hasXeroTokens := hasXeroTokens;
      status_id := userId;
      status_email := or_str (user_email user) userId;
      status_name := or_str name userId |},
   tokenStore').

(** POST /message of the chat router, up to the call of [processMessage]:
    either a refusal, or the user and the Xero access token handed on. *)
Inductive Credentials : Type :=
| Refused (status : Z) (error : string)
| Forward (userId : string) (xeroAccessToken : string).

Definition NoUserIdentifier : string :=
  "Invalid token - no user identifier found".
Definition XeroAuthenticationRequired : string :=
  "Xero authentication required".

Definition message_credentials (now : Z) (user : User) (tokenStore : Store)
    : Credentials * Store :=
  match request_user_id user with
  | Some userId =>
      if negb (truthy_str (Some userId)) then (Refused 400 NoUserIdentifier, tokenStore)
      else
        let '(xeroAccessToken, tokenStore') :=
          getAccessToken now userId tokenStore in
        match xeroAccessToken with
        | Some t =>
            if truthy_str (Some t) then (Forward userId t, tokenStore')
            else (Refused 401 XeroAuthenticationRequired, tokenStore')
        | None => (Refused 401 XeroAuthenticationRequired, tokenStore')
        end
  | None => (Refused 400 NoUserIdentifier, tokenStore)
  end.

(** POST /set-xero-token of the chat router. *)
Record SetTokenBody : Type := mkSetTokenBody {
  sx_access_token : option string;
  sx_refresh_token : option string;
  sx_expires_in : option Z;
  sx_tenant_id : option string
}.

Inductive SetTokenResponse : Type :=
| SetRefused (status : Z) (error : string)
| SetStored (message : string) (hasValidTokens : js_value).

Definition set_xero_token (env : Xero.Env) (now_e now_s now_h : Z)
    (user : User) (body : SetTokenBody) (tokenStore : Store)
    : SetTokenResponse * Store :=
  match request_user_id user with
  | Some userId =>
      if negb (truthy_str (Some userId))
      then (SetRefused 400 NoUserIdentifier, tokenStore)
      else if negb (truthy_str (sx_access_token body))
      then (SetRefused 400 "access_token is required", tokenStore)
      else
        let tokensToStore :=
          {| access_token := sx_access_token body;
             refresh_token := sx_refresh_token body;
             expires_in := or_num (sx_expires_in body) 1800;
             tenant_id := or_str (sx_tenant_id body) (Xero.XERO_TENANT_ID env) |} in
        let stored := storeUserTokens now_e now_s userId tokensToStore tokenStore in
        let '(hasValid, tokenStore') := hasValidTokens now_h userId stored in
        (SetStored ("Xero token stored for user " +:+ userId) hasValid,
         tokenStore')
  | None => (SetRefused 400 NoUserIdentifier, tokenStore)
  end.

(** The head of [createInvoice] in services/xeroService.js: the tenant the
    request to Xero is sent under. *)
Definition fallback_tenant : string := "c8b88426-261c-409a-8258-d9c3fb365d76".

Definition createInvoice_tenant (env : Xero.Env) (now : Z)
    (xeroTenantId userId : option string) (tokenStore : Store)
    : option string * Store :=
  let '(fromStore, tokenStore') :=
    if negb (truthy_str xeroTenantId) && truthy_str userId then
      match userId with
      | Some u => getTenantId now u tokenStore
      | None => (None, tokenStore)
      end
    else (xeroTenantId, tokenStore) in
  (if negb (truthy_str fromStore)
   then or_str (Xero.XERO_TENANT_ID env) (Some fallback_tenant)
   else fromStore,
   tokenStore').

End Routes.

(** The values the handler of POST /callback works out between the answer
    of the token endpoint and the storing, under the names the source gives
    them. *)
Module CallbackParts.

Import Xero.

(** [user_info]: the decoded [id_token], when there is one. *)
Definition user_info (up : Upstream) (d : TokenData) : option UserInfo :=
  match id_token d with
  | Some t => if truthy_str (Some t) then decode_id_token up t else None
  | None => None
  end.

(** [tenants]: the connections, or [[]] when fetching them failed. *)
Definition tenants (up : Upstream) (d : TokenData) : list Tenant :=
  match connections up (access_token d) with
  | Some ts => ts
  | None => []
  end.

(** [tokensToStore]. *)
Definition tokensToStore (env : Env) (up : Upstream) (d : TokenData)
    : TokenStore.Tokens :=
  {| TokenStore.access_token := access_token d;
     TokenStore.refresh_token := refresh_token d;
     TokenStore.expires_in := expires_in d;
     TokenStore.tenant_id :=
       match tenants up d with
       | t :: _ => tenantId t
       | [] => XERO_TENANT_ID env
       end |}.

End CallbackParts.

(** ** Sample data for the examples *)

Module Samples.

Import Xero.

Definition env : Env :=
  {| XERO_CLIENT_ID := Some "abc123";
     XERO_CLIENT_SECRET := Some "secret";
     XERO_CALLBACK_URL := Some "https://app.test/callback";
     XERO_SCOPES := None;
     XERO_TENANT_ID := Some "tenant-0" |}.

Definition env_without_secret : Env :=
  {| XERO_CLIENT_ID := Some "abc123";
     XERO_CLIENT_SECRET := None;
     XERO_CALLBACK_URL := Some "https://app.test/callback";
     XERO_SCOPES := None;
     XERO_TENANT_ID := None |}.

Definition code_request : CallbackBody :=
  {| req_code := Some "code-0123456789"; req_state := Some "xyz" |}.

Definition token_request : TokenRequest :=
  {| grant_type := "authorization_code"; code := "code-0123456789";
     redirect_uri := "https://app.test/callback";
     basic_user := "abc123"; basic_password := "secret" |}.

Definition token_data : TokenData :=
  {| access_token := Some "tok"; refresh_token := Some "ref";
     id_token := Some "h.p.s"; expires_in := Some 1800;
     token_type := Some "Bearer" |}.

Definition token_data_without_id : TokenData :=
  {| access_token := Some "tok"; refresh_token := Some "ref";
     id_token := None; expires_in := Some 1800;
     token_type := Some "Bearer" |}.

Definition identity : UserInfo :=
  {| email := Some "user@example.com"; sub := Some "sub-1" |}.

Definition provider : Upstream :=
  {| token_endpoint := fun _ => Resolved token_data;
     connections := fun _ => Some [{| tenantId := Some "tenant-1" |}];
     decode_id_token := fun _ => Some identity |}.

Definition provider_without_id : Upstream :=
  {| token_endpoint := fun _ => Resolved token_data_without_id;
     connections := fun _ => None;
     decode_id_token := fun _ => None |}.

Definition provider_down : Upstream :=
  {| token_endpoint := fun _ => Thrown {| response := None; request := true |};
     connections := fun _ => None;
     decode_id_token := fun _ => None |}.

Definition clock (k : nat) : Z := 1000 + Z.of_nat k.

Definition payload : Middleware.Payload :=
  {| Middleware.iss := Some "https://identity.xero.com";
     Middleware.aud := Some "client"; Middleware.exp := None;
     Middleware.email := Some "user@example.com";
     Middleware.sub := Some "sub-1"; Middleware.xero_userid := None |}.

Definition decoder (token : string) : option Middleware.Payload := Some payload.

Definition header : option string := Some "Bearer h.p.s".

Definition user : Middleware.User :=
  {| Middleware.claims := payload;
     Middleware.user_email := Some "user@example.com";
     Middleware.user_id := Some "user@example.com";
     Middleware.user_sub := Some "sub-1" |}.

End Samples.

(** * Properties *)

(** ** Truthiness and number helpers *)

Lemma truthy_str_Some (p : option string) :
  truthy_str p = true <-> exists s, p = Some s /\ s <> "".
Proof.
  unfold truthy_str. destruct p as [s|]; simpl.
  - rewrite negb_true_iff. split.
    + intros H. exists s. split; [reflexivity|]. intros ->. discriminate.
    + intros (s' & [= <-] & Hne). apply String.eqb_neq. exact Hne.
  - split; [discriminate|]. intros (s & H & _). discriminate.
Qed.

Lemma truthy_str_nonempty (s : string) :
  s <> "" -> truthy_str (Some s) = true.
Proof. intros H. apply truthy_str_Some. eauto. Qed.

Lemma truthy_str_empty : truthy_str (Some "") = false.
Proof. reflexivity. Qed.

Lemma or_str_truthy_l (a b : option string) :
  truthy_str a = true -> or_str a b = a.
Proof. unfold or_str. intros ->. reflexivity. Qed.

Lemma or_str_falsy_l (a b : option string) :
  truthy_str a = false -> or_str a b = b.
Proof. unfold or_str. intros ->. reflexivity. Qed.

Lemma js_ge_Num (x y : Z) : js_ge (Num x) (Num y) = true <-> y <= x.
Proof. simpl. rewrite Z.geb_le. reflexivity. Qed.

Lemma js_lt_not_ge (a b : js_num) : js_lt a b = true -> js_ge a b = false.
Proof.
  destruct a as [x|], b as [y|]; simpl; try discriminate.
  intros H%Z.ltb_lt. apply not_true_is_false. rewrite Z.geb_le. lia.
Qed.

(** ** The token store *)

Section TokenStoreFacts.

Import TokenStore.

Implicit Types (userId : string) (st : gmap string Stored) (now : Z).

Lemma getUserTokens_missing now userId st :
  st !! userId = None -> getUserTokens now userId st = (None, st).
Proof. intros H. unfold getUserTokens. rewrite H. reflexivity. Qed.

Lemma getUserTokens_live now userId st r :
  st !! userId = Some r -> js_ge (Num now) (expires_at r) = false ->
  getUserTokens now userId st = (Some r, st).
Proof. intros H Hge. unfold getUserTokens. rewrite H, Hge. reflexivity. Qed.

Lemma getUserTokens_expired now userId st r :
  st !! userId = Some r -> expired now r ->
  getUserTokens now userId st = (None, delete userId st).
Proof.
  intros H Hge. unfold getUserTokens, expired in *. rewrite H, Hge. reflexivity.
Qed.

Lemma getUserTokens_Some_inv now userId st r :
  fst (getUserTokens now userId st) = Some r ->
  st !! userId = Some r /\ js_ge (Num now) (expires_at r) = false.
Proof.
  unfold getUserTokens. destruct (st !! userId) as [r'|]; [|discriminate].
  destruct (js_ge (Num now) (expires_at r')) eqn:E; simpl; [discriminate|].
  intros [= ->]. split; [reflexivity | exact E].
Qed.

(** C4: [getUserTokens] hands back the stored record while
    [now < expires_at]; once [now >= expires_at] it answers [null] and
    deletes the record; without a record it answers [null]; whatever the
    store, a record it returns is not expired. *)
Theorem getUserTokens_lazy_eviction now userId st :
  (forall r, st !! userId = Some r -> unexpired now r ->
     getUserTokens now userId st = (Some r, st))
  /\ (forall r, st !! userId = Some r -> expired now r ->
        getUserTokens now userId st = (None, delete userId st)
        /\ delete userId st !! userId = None)
  /\ (st !! userId = None -> getUserTokens now userId st = (None, st))
  /\ (forall r, fst (getUserTokens now userId st) = Some r ->
        st !! userId = Some r /\ ~ expired now r).
Proof.
  split; [|split; [|split]].
  - intros r H Hlt. apply getUserTokens_live; [exact H|].
    apply js_lt_not_ge. exact Hlt.
  - intros r H Hexp. split.
    + eapply getUserTokens_expired; eassumption.
    + apply lookup_delete_eq.
  - apply getUserTokens_missing.
  - intros r H. apply getUserTokens_Some_inv in H. destruct H as [H Hge].
    split; [exact H|]. unfold expired. rewrite Hge. discriminate.
Qed.

(** The record [storeUserTokens] writes, read back from the map. *)
Lemma storeUserTokens_lookup now_e now_s userId tokens st :
  storeUserTokens now_e now_s userId tokens st !! userId =
  Some {| s_access_token := access_token tokens;
          s_refresh_token := refresh_token tokens;
          expires_at :=
            js_add (Num now_e)
                   (js_mul (to_number (expires_in tokens)) (Num 1000));
          s_tenant_id := tenant_id tokens;
          stored_at := now_s |}.
Proof. unfold storeUserTokens. apply lookup_insert_eq. Qed.

Lemma storeUserTokens_other now_e now_s userId other tokens st :
  userId <> other ->
  storeUserTokens now_e now_s userId tokens st !! other = st !! other.
Proof. intros H. unfold storeUserTokens. apply lookup_insert_ne. exact H. Qed.

(** C5, as amended: a store followed by a get returns a record with the
    stored [access_token] whenever the get reads the clock before
    [now_e + expires_in * 1000] (always, when [expires_in] is absent and
    the expiry is [NaN]). *)
Theorem store_get_roundtrip now_e now_s now userId tokens st :
  (forall e, expires_in tokens = Some e -> now < now_e + e * 1000) ->
  exists r,
    getUserTokens now userId (storeUserTokens now_e now_s userId tokens st)
    = (Some r, storeUserTokens now_e now_s userId tokens st)
    /\ s_access_token r = access_token tokens.
Proof.
  intros Hlife. eexists. split.
  - apply getUserTokens_live; [apply storeUserTokens_lookup|].
    simpl. destruct (expires_in tokens) as [e|]; simpl; [|reflexivity].
    apply not_true_is_false. rewrite Z.geb_le.
    specialize (Hlife e eq_refl). lia.
  - reflexivity.
Qed.

(** [hasValidTokens] is truthy exactly when [getUserTokens] finds a live
    record with a non-empty access token. *)
Lemma hasValidTokens_truthy now userId st :
  truthy (fst (hasValidTokens now userId st)) = true <->
  exists r, fst (getUserTokens now userId st) = Some r
            /\ truthy_str (s_access_token r) = true.
Proof.
  unfold hasValidTokens.
  destruct (getUserTokens now userId st) as [[r|] st']; simpl.
  - split; [eauto|]. intros (r' & [= <-] & H). exact H.
  - split; [discriminate|]. intros (r' & H & _). discriminate.
Qed.

(** The only boolean [hasValidTokens] can return is [false]. *)
Lemma hasValidTokens_never_true now userId st :
  fst (hasValidTokens now userId st) <> JBool true.
Proof.
  unfold hasValidTokens.
  destruct (getUserTokens now userId st) as [[r|] st']; simpl.
  - destruct (s_access_token r); discriminate.
  - discriminate.
Qed.

End TokenStoreFacts.

Section TokenStoreExamples.

Import TokenStore.

Lemma getUserTokens_lazy_eviction_witness :
  let r := {| s_access_token := Some "tok"; s_refresh_token := None;
              expires_at := Num 5000; s_tenant_id := None;
              stored_at := 1000 |} in
  let st : gmap string Stored := {[ "user@example.com" := r ]} in
  getUserTokens 4999 "user@example.com" st = (Some r, st)
  /\ getUserTokens 5000 "user@example.com" st
     = (None, delete "user@example.com" st)
  /\ getUserTokens 5000 "nobody" st = (None, st).
Proof.
  intros r st.
  destruct (getUserTokens_lazy_eviction 4999 "user@example.com" st)
    as (Hlive & _).
  destruct (getUserTokens_lazy_eviction 5000 "user@example.com" st)
    as (_ & Hdead & _).
  destruct (getUserTokens_lazy_eviction 5000 "nobody" st)
    as (_ & _ & Hnone & _).
  split; [|split].
  - apply Hlive; reflexivity.
  - apply (Hdead r); reflexivity.
  - apply Hnone. reflexivity.
Defined.

(** C5 as stated fails: tokens whose [expires_in] is [0] are stored with
    [expires_at] equal to the clock reading, and the get that follows at
    that same reading finds them expired and answers [null]. *)
Lemma store_get_roundtrip_zero_lifetime :
  let tokens := {| access_token := Some "tok"; refresh_token := None;
                   expires_in := Some 0; tenant_id := None |} in
  fst (getUserTokens 1000 "user@example.com"
         (storeUserTokens 1000 1000 "user@example.com" tokens ∅))
  = None.
Proof. reflexivity. Qed.

Lemma store_get_roundtrip_witness :
  let tokens := {| access_token := Some "tok"; refresh_token := None;
                   expires_in := Some 1800; tenant_id := None |} in
  exists r,
    getUserTokens 1000 "user@example.com"
      (storeUserTokens 1000 1000 "user@example.com" tokens ∅)
    = (Some r, storeUserTokens 1000 1000 "user@example.com" tokens ∅)
    /\ s_access_token r = Some "tok".
Proof.
  intros tokens.
  apply (store_get_roundtrip 1000 1000 1000 "user@example.com" tokens ∅).
  intros e [= <-]. lia.
Defined.

(** C6: with a live record whose access token is ["tok"], both
    [hasValidTokens] and the body of GET /tokens/status carry the string
    ["tok"] itself, not the boolean [true]; [listAllTokens] does report the
    boolean. *)
Theorem hasValidTokens_returns_the_token :
  let tokens := {| access_token := Some "tok"; refresh_token := None;
                   expires_in := Some 1800; tenant_id := None |} in
  let st := storeUserTokens 1000 1000 "user@example.com" tokens ∅ in
  fst (hasValidTokens 2000 "user@example.com" st) = JStr "tok"
  /\ fst (hasValidTokens 2000 "user@example.com" st) <> JBool true
  /\ fst (Xero.tokens_status 2000 (Some "user@example.com")
            {| Xero.usedCodes := ∅; Xero.tokenStore := st |})
     = {| Xero.status := 200;
          Xero.body := Xero.StatusBody (JStr "tok") "user@example.com" |}
  /\ (listAllTokens st
      ≫= fun result => hasAccessToken <$> (result !! "user@example.com"))
     = Some true.
Proof.
  intros tokens st.
  assert (H : hasValidTokens 2000 "user@example.com" st = (JStr "tok", st)).
  { unfold hasValidTokens.
    unfold st.
    rewrite (getUserTokens_live 2000 _ _ _
               (storeUserTokens_lookup 1000 1000 "user@example.com" tokens ∅))
      by reflexivity.
    reflexivity. }
  split; [|split; [|split]].
  - rewrite H. reflexivity.
  - rewrite H. discriminate.
  - unfold Xero.tokens_status. simpl Xero.tokenStore. rewrite H. reflexivity.
  - unfold listAllTokens. rewrite decide_True.
    + cbn [mbind option_bind]. rewrite lookup_delete_ne by discriminate.
      unfold st. rewrite lookup_fmap, storeUserTokens_lookup. reflexivity.
    + unfold st, storeUserTokens. apply map_Forall_insert_2.
      * split; reflexivity.
      * apply map_Forall_empty.
Qed.

(** A record stored without [expires_in] has the expiry [NaN], which
    [toISOString] refuses: while the store holds it, [listAllTokens]
    throws. *)
Example listAllTokens_invalid_date :
  let tokens := {| access_token := Some "tok"; refresh_token := None;
                   expires_in := None; tenant_id := None |} in
  listAllTokens (storeUserTokens 1000 1000 "user@example.com" tokens ∅) = None.
Proof.
  intros tokens. unfold listAllTokens. apply decide_False.
  intros H.
  pose proof (map_Forall_lookup_1 _ _ _ _ H
                (storeUserTokens_lookup 1000 1000 "user@example.com" tokens ∅))
    as [Hexp _].
  discriminate Hexp.
Qed.

End TokenStoreExamples.

(** ** POST /store-tokens *)

Section StoreTokensFacts.

Import TokenStore Xero.

(** C10: a POST /store-tokens with [userId] and [access_token] succeeds
    and stores a record that expires [expires_in || 1800] seconds after
    the clock reading, 1800 when [expires_in] is absent, under the tenant
    [tenant_id || XERO_TENANT_ID]; until that expiry [getUserTokens]
    returns the record, with the access token of the request. *)
Theorem store_tokens_defaults env now_e now_s req srv userId tok :
  st_userId req = Some userId -> userId <> "" ->
  st_access_token req = Some tok -> tok <> "" ->
  fst (store_tokens env now_e now_s req srv)
  = {| status := 200; body := SuccessBody "Tokens stored successfully" |}
  /\ exists r lifetime,
       tokenStore (snd (store_tokens env now_e now_s req srv)) !! userId
       = Some r
       /\ s_access_token r = Some tok
       /\ or_num (st_expires_in req) 1800 = Some lifetime
       /\ (st_expires_in req = None -> lifetime = 1800)
       /\ expires_at r = Num (now_e + lifetime * 1000)
       /\ s_tenant_id r = or_str (st_tenant_id req) (XERO_TENANT_ID env)
       /\ (st_tenant_id req = None -> s_tenant_id r = XERO_TENANT_ID env)
       /\ (forall now, now < now_e + lifetime * 1000 ->
             fst (getUserTokens now userId
                    (tokenStore (snd (store_tokens env now_e now_s req srv))))
             = Some r).
Proof.
  intros Hu Hune Ht Htne.
  unfold store_tokens. rewrite Hu, Ht.
  rewrite !truthy_str_nonempty by assumption. simpl negb. simpl orb. cbv iota.
  split; [reflexivity|].
  assert (Hl : exists l, or_num (st_expires_in req) 1800 = Some l
                         /\ (st_expires_in req = None -> l = 1800)).
  { unfold or_num. destruct (st_expires_in req) as [e|]; simpl.
    - destruct (e =? 0); simpl; eexists; (split; [reflexivity|discriminate]).
    - eexists. split; reflexivity. }
  destruct Hl as (l & Hl & Hdef).
  eexists. exists l. simpl snd. simpl tokenStore.
  split; [apply storeUserTokens_lookup|].
  cbn [s_access_token expires_at s_tenant_id TokenStore.access_token
       TokenStore.expires_in TokenStore.tenant_id].
  rewrite Hl. cbn [to_number js_mul js_add].
  repeat split; try assumption.
  - intros ->. reflexivity.
  - intros now Hnow.
    erewrite getUserTokens_live; [reflexivity|apply storeUserTokens_lookup|].
    cbn [expires_at TokenStore.expires_in to_number js_mul js_add js_ge].
    apply not_true_is_false. rewrite Z.geb_le. lia.
Qed.

Lemma store_tokens_defaults_witness :
  let env := {| XERO_CLIENT_ID := None; XERO_CLIENT_SECRET := None;
                XERO_CALLBACK_URL := None; XERO_SCOPES := None;
                XERO_TENANT_ID := Some "tenant-1" |} in
  let req := {| st_userId := Some "user@example.com";
                st_access_token := Some "tok";
                st_refresh_token := None;
                st_expires_in := None;
                st_tenant_id := None |} in
  exists r,
    tokenStore (snd (store_tokens env 1000 1000 req initial))
      !! "user@example.com" = Some r
    /\ expires_at r = Num 1801000
    /\ s_tenant_id r = Some "tenant-1"
    /\ fst (getUserTokens 1800999 "user@example.com"
              (tokenStore (snd (store_tokens env 1000 1000 req initial))))
       = Some r.
Proof.
  intros env req.
  destruct (store_tokens_defaults env 1000 1000 req initial
              "user@example.com" "tok")
    as (_ & r & l & Hr & _ & _ & Hdef & Hexp & _ & Hten & Hget);
    try reflexivity; try discriminate.
  exists r. rewrite (Hdef eq_refl) in Hexp, Hget.
  repeat split.
  - exact Hr.
  - exact Hexp.
  - apply Hten. reflexivity.
  - apply Hget. reflexivity.
Defined.

End StoreTokensFacts.

(** ** The authentication middleware *)

Section MiddlewareFacts.

Import Middleware.

Implicit Types (payload : Payload) (now : Z).

Lemma exp_check_true now payload :
  exp_check now payload = true <->
  exists e, exp payload = Some e /\ e <> 0 /\ e * 1000 <= now.
Proof.
  unfold exp_check. destruct (exp payload) as [e|]; simpl.
  - rewrite andb_true_iff, negb_true_iff, Z.eqb_neq, Z.geb_le. split.
    + intros [H1 H2]. eauto.
    + intros (e' & [= <-] & H1 & H2). tauto.
  - split; [discriminate|]. intros (e & H & _). discriminate.
Qed.

(** A token that carries [iss] and [aud] and a non-zero [exp] that has
    passed is rejected as expired. *)
Lemma check_payload_expired now payload e :
  truthy_str (iss payload) = true -> truthy_str (aud payload) = true ->
  exp payload = Some e -> e <> 0 -> e * 1000 <= now ->
  check_payload now payload = Rejected 403 TokenExpired.
Proof.
  intros Hi Ha He Hnz Hle. unfold check_payload. rewrite Hi, Ha. simpl.
  assert (H : exp_check now payload = true) by (apply exp_check_true; eauto).
  rewrite H. reflexivity.
Qed.

(** What an accepted payload looks like. *)
Lemma check_payload_Next now payload user :
  check_payload now payload = Next user ->
  truthy_str (iss payload) = true /\ truthy_str (aud payload) = true
  /\ exp_check now payload = false
  /\ claims user = payload
  /\ truthy_str (user_id user) = true
  /\ user_id user = first_identifier payload
  /\ user_email user = or_str (email payload) (user_id user)
  /\ user_sub user = or_str (sub payload) (user_id user).
Proof.
  unfold check_payload, first_identifier, or_str.
  destruct (truthy_str (iss payload)); simpl; [|discriminate].
  destruct (truthy_str (aud payload)); simpl; [|discriminate].
  destruct (exp_check now payload); [discriminate|].
  destruct (truthy_str (email payload)) eqn:Ee;
    destruct (truthy_str (sub payload)) eqn:Es;
    destruct (truthy_str (xero_userid payload)) eqn:Ex;
    destruct (is_xero payload);
    cbv iota; rewrite ?Ee, ?Es, ?Ex; cbn [negb]; cbv iota;
    try discriminate;
    intros [= <-]; cbn [claims user_id user_email user_sub];
    rewrite ?Ee, ?Es, ?Ex; tauto.
Qed.

(** Without any of the three identifiers the payload is turned away, and
    with the missing-identifier error once format and expiry passed. *)
Lemma check_payload_no_identifier now payload :
  truthy_str (email payload) = false -> truthy_str (sub payload) = false ->
  truthy_str (xero_userid payload) = false ->
  (exists e, check_payload now payload = Rejected 403 e)
  /\ (truthy_str (iss payload) = true -> truthy_str (aud payload) = true ->
      exp_check now payload = false ->
      is_missing_user_identifier (check_payload now payload) = true).
Proof.
  intros Ee Es Ex. unfold check_payload, or_str.
  destruct (truthy_str (iss payload)); simpl.
  2:{ split; [eauto | discriminate]. }
  destruct (truthy_str (aud payload)); simpl.
  2:{ split; [eauto | discriminate]. }
  destruct (exp_check now payload).
  { split; [eauto | discriminate]. }
  rewrite Ee, Es. destruct (is_xero payload); rewrite ?Ex; simpl;
    (split; [eauto | reflexivity]).
Qed.

(** A live token with [iss], [aud] and an [email] or a [sub] goes through. *)
Lemma check_payload_accepts now payload :
  truthy_str (iss payload) = true -> truthy_str (aud payload) = true ->
  exp_check now payload = false ->
  truthy_str (or_str (email payload) (sub payload)) = true ->
  exists user, check_payload now payload = Next user
               /\ user_id user = or_str (email payload) (sub payload).
Proof.
  intros Hi Ha He Hid. unfold check_payload. rewrite Hi, Ha, He. simpl.
  destruct (is_xero payload).
  - assert (Hx : or_str (or_str (email payload) (sub payload))
                   (xero_userid payload)
                 = or_str (email payload) (sub payload))
      by (apply or_str_truthy_l; exact Hid).
    rewrite Hx, Hid. simpl. eexists. split; reflexivity.
  - rewrite Hid. simpl. eexists. split; reflexivity.
Qed.

Section WithDecoder.

Variable jwt_decode : string -> option Payload.

Lemma authenticateToken_Next now authHeader user :
  authenticateToken jwt_decode now authHeader = Next user ->
  exists tok, bearer_token authHeader = Some tok
              /\ jwt_decode tok = Some (claims user)
              /\ check_payload now (claims user) = Next user.
Proof.
  unfold authenticateToken.
  destruct (truthy_str (bearer_token authHeader)); simpl; [|discriminate].
  destruct (bearer_token authHeader) as [tok|]; [|discriminate].
  destruct (jwt_decode tok) as [payload|] eqn:Ed; [|discriminate].
  intros H. pose proof (check_payload_Next _ _ _ H) as (_ & _ & _ & Hc & _).
  exists tok. rewrite Hc. auto.
Qed.

Lemma authenticateToken_decoded now authHeader tok payload :
  bearer_token authHeader = Some tok -> tok <> "" ->
  jwt_decode tok = Some payload ->
  authenticateToken jwt_decode now authHeader = check_payload now payload.
Proof.
  intros Hb Hne Hd. unfold authenticateToken. rewrite Hb.
  rewrite truthy_str_nonempty by exact Hne. simpl. rewrite Hd. reflexivity.
Qed.

Lemma exp_check_false_of_live now payload :
  (forall e, exp payload = Some e -> now < e * 1000) ->
  exp_check now payload = false.
Proof.
  intros H. destruct (exp_check now payload) eqn:E; [|reflexivity].
  apply exp_check_true in E as (e & He & _ & Hle).
  specialize (H e He). lia.
Qed.

(** C8, as amended: when the token of the header decodes to [payload], an
    accepted request carries that payload and a non-empty [userIdentifier],
    which is the [email] of the payload when it has one, else its [sub],
    else its [xero_userid]; a payload with none of the three is never
    accepted, and when it carries [iss] and [aud] and has not expired it is
    rejected with the missing-identifier error. *)
Theorem authenticateToken_user_identifier now authHeader tok payload :
  bearer_token authHeader = Some tok -> tok <> "" ->
  jwt_decode tok = Some payload ->
  (forall user,
      authenticateToken jwt_decode now authHeader = Next user ->
      claims user = payload
      /\ exists uid,
           user_id user = Some uid /\ uid <> ""
           /\ (truthy_str (email payload) = true -> email payload = Some uid)
           /\ (truthy_str (email payload) = false ->
               truthy_str (sub payload) = true -> sub payload = Some uid)
           /\ (truthy_str (email payload) = false ->
               truthy_str (sub payload) = false ->
               xero_userid payload = Some uid))
  /\ (truthy_str (email payload) = false ->
      truthy_str (sub payload) = false ->
      truthy_str (xero_userid payload) = false ->
      (exists e, authenticateToken jwt_decode now authHeader = Rejected 403 e)
      /\ forall i a,
           iss payload = Some i -> i <> "" ->
           aud payload = Some a -> a <> "" ->
           (forall e, exp payload = Some e -> now < e * 1000) ->
           authenticateToken jwt_decode now authHeader
           = Rejected 403
               (if includes i "xero"
                then "Invalid Xero token - missing user identifier"
                else "Invalid token - missing user identifier")).
Proof.
  intros Hb Hne Hd.
  rewrite (authenticateToken_decoded _ _ _ _ Hb Hne Hd).
  split.
  - intros user H.
    apply check_payload_Next in H
      as (_ & _ & _ & Hc & Ht & Hid & _).
    split; [exact Hc|].
    apply truthy_str_Some in Ht as (uid & Hu & Hune).
    exists uid. rewrite Hu in Hid. unfold first_identifier in Hid.
    split; [exact Hu|]. split; [exact Hune|].
    split; [|split].
    + intros He. rewrite He in Hid. congruence.
    + intros He Hs. rewrite He, Hs in Hid. congruence.
    + intros He Hs. rewrite He, Hs in Hid. congruence.
  - intros He Hs Hx.
    split; [apply check_payload_no_identifier; assumption|].
    intros i a Hi Hine Ha Hane Hlive.
    unfold check_payload, is_xero, or_str.
    rewrite Hi, Ha, !truthy_str_nonempty by assumption.
    rewrite (exp_check_false_of_live _ _ Hlive).
    cbn [negb orb andb]. rewrite He, Hs.
    destruct (includes i "xero"); rewrite ?Hx; reflexivity.
Qed.

End WithDecoder.

End MiddlewareFacts.

Section MiddlewareExamples.

Import Middleware.

(** C7: a token with [iss], [aud], an [email] and [exp] equal to [0] is
    long expired ([now >= exp * 1000]), yet the middleware lets it through: the
    test [payload.exp && ...] takes the number [0] for an absent [exp]. *)
Theorem authenticateToken_accepts_exp_zero :
  let payload := {| iss := Some "https://identity.xero.com";
                    aud := Some "client"; exp := Some 0;
                    email := Some "user@example.com";
                    sub := None; xero_userid := None |} in
  let now := 1700000000000 in
  0 * 1000 <= now
  /\ authenticateToken (fun _ => Some payload) now (Some "Bearer h.p.s")
     = Next {| claims := payload;
               user_email := Some "user@example.com";
               user_id := Some "user@example.com";
               user_sub := Some "user@example.com" |}.
Proof. intros payload now. split; [subst now; lia | reflexivity]. Qed.

(** The two tokens of the specification's scenario, at the clock reading
    1700000000000: [exp] one second in the past, [exp] one hour ahead. *)
Example token_one_second_past_rejected :
  authenticateToken
    (fun _ => Some {| iss := Some "https://identity.xero.com";
                      aud := Some "client"; exp := Some 1699999999;
                      email := Some "user@example.com";
                      sub := None; xero_userid := None |})
    1700000000000 (Some "Bearer h.p.s")
  = Rejected 403 TokenExpired.
Proof. reflexivity. Qed.

Example token_one_hour_ahead_accepted :
  exists user,
    authenticateToken
      (fun _ => Some {| iss := Some "https://identity.xero.com";
                        aud := Some "client"; exp := Some 1700003600;
                        email := Some "user@example.com";
                        sub := None; xero_userid := None |})
      1700000000000 (Some "Bearer h.p.s")
    = Next user /\ user_id user = Some "user@example.com".
Proof. eexists. split; reflexivity. Qed.

(** The [xero_userid] is consulted for tokens whose issuer contains
    ["xero"] only. *)
Example xero_userid_needs_xero_issuer :
  check_payload 0 {| iss := Some "https://issuer.example"; aud := Some "client";
                     exp := None; email := None; sub := None;
                     xero_userid := Some "x-1" |}
  = Rejected 403 MissingUserIdentifier
  /\ exists user,
       check_payload 0 {| iss := Some "https://identity.xero.com";
                          aud := Some "client"; exp := None; email := None;
                          sub := None; xero_userid := Some "x-1" |}
       = Next user /\ user_id user = Some "x-1".
Proof. split; [reflexivity|]. eexists. split; reflexivity. Qed.

(** C8 as stated fails: a token without [iss] and without any of the three
    identifiers is turned away at the format check, with the format error
    and not with a missing-identifier error. *)
Lemma authenticateToken_no_identifier_no_issuer :
  let payload := {| iss := None; aud := Some "client"; exp := None;
                    email := None; sub := None; xero_userid := None |} in
  authenticateToken (fun _ => Some payload) 1700000000000 (Some "Bearer h.p.s")
  = Rejected 403 "Invalid token format"
  /\ is_missing_user_identifier
       (authenticateToken (fun _ => Some payload) 1700000000000
          (Some "Bearer h.p.s")) = false.
Proof. split; reflexivity. Qed.

Lemma authenticateToken_user_identifier_witness :
  let named := {| iss := Some "https://identity.xero.com";
                  aud := Some "client"; exp := None; email := None;
                  sub := Some "sub-1"; xero_userid := Some "x-1" |} in
  let nameless := {| iss := Some "https://identity.xero.com";
                     aud := Some "client"; exp := Some 1700003600;
                     email := None; sub := None; xero_userid := None |} in
  (exists user,
      authenticateToken (fun _ => Some named) 1700000000000
        (Some "Bearer h.p.s") = Next user
      /\ claims user = named /\ user_id user = Some "sub-1")
  /\ authenticateToken (fun _ => Some nameless) 1700000000000
       (Some "Bearer h.p.s")
     = Rejected 403 "Invalid Xero token - missing user identifier".
Proof.
  intros named nameless. split.
  - destruct (authenticateToken (fun _ => Some named) 1700000000000
                (Some "Bearer h.p.s")) as [|user] eqn:E; [discriminate|].
    exists user. split; [reflexivity|].
    destruct (authenticateToken_user_identifier (fun _ => Some named)
                1700000000000 (Some "Bearer h.p.s") "h.p.s" named
                eq_refl ltac:(discriminate) eq_refl) as [Hacc _].
    destruct (Hacc user E) as (Hc & uid & Hu & _ & _ & Hs & _).
    split; [exact Hc|]. rewrite Hu. symmetry. apply Hs; reflexivity.
  - destruct (authenticateToken_user_identifier (fun _ => Some nameless)
                1700000000000 (Some "Bearer h.p.s") "h.p.s" nameless
                eq_refl ltac:(discriminate) eq_refl) as [_ Hrej].
    destruct (Hrej eq_refl eq_refl eq_refl) as [_ Hmissing].
    apply (Hmissing "https://identity.xero.com" "client");
      try reflexivity; try discriminate.
    intros e [= <-]. lia.
Defined.

End MiddlewareExamples.

(** ** Strings *)

Section StringFacts.

Lemma prefix_append (n rest : string) : String.prefix n (n +:+ rest) = true.
Proof.
  induction n as [|c n IH]; simpl.
  - destruct rest; reflexivity.
  - destruct (ascii_dec c c) as [_|Hne]; [exact IH | contradiction].
Qed.

Lemma includes_here (hay needle : string) :
  String.prefix needle hay = true -> includes hay needle = true.
Proof. intros H. destruct hay; simpl in *; rewrite H; reflexivity. Qed.

Lemma includes_append (before needle rest : string) :
  includes (before +:+ needle +:+ rest) needle = true.
Proof.
  induction before as [|c before IH].
  - change (includes (needle +:+ rest) needle = true).
    apply includes_here. apply prefix_append.
  - change (String c before +:+ needle +:+ rest)
      with (String c (before +:+ needle +:+ rest)).
    cbn [includes]. rewrite IH. destruct (String.prefix _ _); reflexivity.
Qed.

Lemma includes_middle (before needle rest s : string) :
  s = before +:+ needle +:+ rest -> includes s needle = true.
Proof. intros ->. apply includes_append. Qed.

Lemma append_assoc (a b c : string) : (a +:+ b) +:+ c = a +:+ (b +:+ c).
Proof.
  induction a as [|x a IH]; [reflexivity|].
  change (String x ((a +:+ b) +:+ c) = String x (a +:+ (b +:+ c))).
  f_equal. exact IH.
Qed.

Lemma length_append (a b : string) :
  String.length (a +:+ b) = (String.length a + String.length b)%nat.
Proof.
  induction a as [|x a IH]; [reflexivity|].
  change (S (String.length (a +:+ b))
          = S (String.length a + String.length b)).
  f_equal. exact IH.
Qed.

Lemma length_substring (s : string) (n m : nat) :
  String.length (String.substring n m s)
  = Nat.min m (String.length s - n).
Proof.
  revert n m. induction s as [|c s IH]; intros n m.
  - destruct n, m; reflexivity.
  - destruct n as [|n].
    + destruct m as [|m]; simpl; [reflexivity|].
      rewrite IH. rewrite Nat.sub_0_r. reflexivity.
    + simpl. apply IH.
Qed.

Lemma length_js_substring (s : string) (from to : nat) :
  String.length (js_substring s from to)
  = Nat.min (to - from) (String.length s - from).
Proof. apply length_substring. Qed.

End StringFacts.

(** ** GET /auth *)

Section AuthFacts.

Import Xero.

Lemma length_make_state (r1 r2 : string) :
  String.length (make_state r1 r2)
  = (Nat.min 13 (String.length r1 - 2) + Nat.min 13 (String.length r2 - 2))%nat.
Proof.
  unfold make_state. rewrite length_append, !length_js_substring. reflexivity.
Qed.

(** The URL that [authUrl.toString()] yields for the five parameters. *)
Lemma authorize_url (client_id callback_url scopes state : string) :
  url_with_params authorize_endpoint
    [("response_type", "code"); ("client_id", client_id);
     ("redirect_uri", callback_url); ("scope", scopes); ("state", state)]
  = authorize_endpoint +:+ "?response_type=code&client_id="
    +:+ urlencode client_id +:+ "&redirect_uri=" +:+ urlencode callback_url
    +:+ "&scope=" +:+ urlencode scopes +:+ "&state=" +:+ urlencode state.
Proof.
  unfold url_with_params, serialize_params, serialize_pair. cbn [fst snd].
  rewrite !append_assoc. reflexivity.
Qed.

(** C9, as amended: with the client id and the callback URL configured,
    GET /auth answers with an authorization URL that carries
    [response_type=code], the client id and the URL-encoded redirect URI,
    and with a state made of characters 2 to 14 of the two random base-36
    renderings: at most 26 characters, and at least 20 when each rendering
    has 12 characters or more. *)
Theorem auth_response env r1 r2 client_id callback_url :
  XERO_CLIENT_ID env = Some client_id -> client_id <> "" ->
  XERO_CALLBACK_URL env = Some callback_url -> callback_url <> "" ->
  exists authUrl state,
    auth env r1 r2 = {| status := 200; body := AuthBody authUrl state |}
    /\ state = js_substring r1 2 15 +:+ js_substring r2 2 15
    /\ authUrl
       = authorize_endpoint +:+ "?response_type=code&client_id="
         +:+ urlencode client_id
         +:+ "&redirect_uri=" +:+ urlencode callback_url
         +:+ "&scope=" +:+ urlencode (requested_scopes env)
         +:+ "&state=" +:+ urlencode state
    /\ includes authUrl "response_type=code" = true
    /\ includes authUrl
         ("client_id=" +:+ urlencode client_id
          +:+ "&redirect_uri=" +:+ urlencode callback_url) = true
    /\ (String.length state <= 26)%nat
    /\ ((12 <= String.length r1)%nat -> (12 <= String.length r2)%nat ->
        (20 <= String.length state)%nat).
Proof.
  intros Hc Hcne Hu Hune. unfold auth. rewrite Hc, Hu.
  rewrite !truthy_str_nonempty by assumption. simpl negb. simpl orb. cbv iota.
  eexists. eexists. split; [reflexivity|].
  rewrite authorize_url.
  split; [reflexivity|]. split; [reflexivity|].
  split; [|split; [|split]].
  - apply (includes_middle (authorize_endpoint +:+ "?") _
             ("&client_id=" +:+ urlencode client_id
              +:+ "&redirect_uri=" +:+ urlencode callback_url
              +:+ "&scope=" +:+ urlencode (requested_scopes env)
              +:+ "&state=" +:+ urlencode (make_state r1 r2))).
    rewrite !append_assoc. reflexivity.
  - apply (includes_middle (authorize_endpoint +:+ "?response_type=code&") _
             ("&scope=" +:+ urlencode (requested_scopes env)
              +:+ "&state=" +:+ urlencode (make_state r1 r2))).
    rewrite !append_assoc. reflexivity.
  - rewrite length_make_state. lia.
  - rewrite length_make_state. lia.
Qed.

End AuthFacts.

Section AuthExamples.

Import Xero.

(** C9 as stated fails: when both calls of [Math.random()] return [0.5],
    whose base-36 rendering is ["0.i"], the configured server answers with
    the two-character state ["ii"]. *)
Lemma auth_state_shorter_than_20 :
  let env := {| XERO_CLIENT_ID := Some "abc123";
                XERO_CLIENT_SECRET := Some "secret";
                XERO_CALLBACK_URL := Some "https://app.test/callback";
                XERO_SCOPES := Some "openid";
                XERO_TENANT_ID := None |} in
  auth env "0.i" "0.i"
  = {| status := 200;
       body := AuthBody
         "https://login.xero.com/identity/connect/authorize?response_type=code&client_id=abc123&redirect_uri=https%3A%2F%2Fapp.test%2Fcallback&scope=openid&state=ii"
         "ii" |}
  /\ (String.length "ii" < 20)%nat.
Proof. split; [reflexivity | simpl; lia]. Qed.

Lemma auth_response_witness :
  let env := {| XERO_CLIENT_ID := Some "abc123";
                XERO_CLIENT_SECRET := Some "secret";
                XERO_CALLBACK_URL := Some "https://app.test/callback";
                XERO_SCOPES := Some "openid";
                XERO_TENANT_ID := None |} in
  exists authUrl state,
    auth env "0.4fzyo82mvyr" "0.8k2j5h1x9q" = {| status := 200; body := AuthBody authUrl state |}
    /\ includes authUrl
         "client_id=abc123&redirect_uri=https%3A%2F%2Fapp.test%2Fcallback"
       = true
    /\ (20 <= String.length state)%nat.
Proof.
  intros env.
  destruct (auth_response env "0.4fzyo82mvyr" "0.8k2j5h1x9q"
              "abc123" "https://app.test/callback")
    as (authUrl & state & Hres & _ & _ & _ & Hinc & _ & Hlen);
    try reflexivity; try discriminate.
  exists authUrl, state. split; [exact Hres|]. split; [exact Hinc|].
  apply Hlen; simpl; lia.
Defined.

End AuthExamples.

(** ** POST /callback *)

Section CallbackFacts.

Import Xero.

Implicit Types (env : Env) (up : Upstream) (now : nat -> Z).
Implicit Types (req : CallbackBody) (srv : Server) (c : string).

Lemma callback_already_used env up now req srv c :
  req_code req = Some c -> c <> "" -> c ∈ usedCodes srv ->
  callback env up now req srv = (code_already_used, srv, []).
Proof.
  intros Hc Hne Hin. unfold callback.
  rewrite Hc, (truthy_str_nonempty _ Hne). simpl.
  rewrite bool_decide_eq_true_2 by exact Hin. reflexivity.
Qed.

Lemma callback_fresh env up now req srv c :
  req_code req = Some c -> c <> "" -> c ∉ usedCodes srv ->
  callback env up now req srv =
    if (js_length c <? 10)%nat then (malformed_code, marked c srv, [])
    else
      match configured env with
      | None => (misconfigured, marked c srv, [])
      | Some (client_id, client_secret, callback_url) =>
          let tokenData :=
            {| grant_type := "authorization_code"; code := c;
               redirect_uri := callback_url; basic_user := client_id;
               basic_password := client_secret |} in
          match token_endpoint up tokenData with
          | Resolved d =>
              (fst (exchange_succeeded env up now d (marked c srv)),
               snd (exchange_succeeded env up now d (marked c srv)),
               [tokenData])
          | Thrown e =>
              (fst (exchange_failed env c e (marked c srv)),
               snd (exchange_failed env c e (marked c srv)),
               [tokenData])
          end
      end.
Proof.
  intros Hc Hne Hin. unfold callback.
  rewrite Hc, (truthy_str_nonempty _ Hne). simpl.
  rewrite bool_decide_eq_false_2 by exact Hin.
  destruct (js_length c <? 10)%nat; [reflexivity|].
  destruct (configured env) as [[[client_id client_secret] callback_url]|];
    [|reflexivity].
  cbv zeta. destruct (token_endpoint up _) as [d|e].
  - destruct (exchange_succeeded env up now d (marked c srv)); reflexivity.
  - destruct (exchange_failed env c e (marked c srv)); reflexivity.
Qed.

Lemma callback_missing env up now req srv :
  req_code req = None \/ req_code req = Some "" ->
  callback env up now req srv = (missing_code, srv, []).
Proof. unfold callback. intros [-> | ->]; reflexivity. Qed.

Lemma exchange_succeeded_spec env up now d srv :
  usedCodes (snd (exchange_succeeded env up now d srv)) = usedCodes srv
  /\ is_success (fst (exchange_succeeded env up now d srv)) = true
  /\ status (fst (exchange_succeeded env up now d srv)) = 200.
Proof.
  unfold exchange_succeeded. destruct (persist _ _ _ _ _ _). auto.
Qed.

Lemma error_response_not_success env e :
  is_success (error_response env e) = false.
Proof.
  unfold error_response, by_status.
  destruct (response e) as [r|]; [|destruct (request e); reflexivity].
  destruct (data r) as [d|].
  - destruct (error d) as [err|].
    + destruct (truthy_str (Some err)).
      * destruct (explain env err d). reflexivity.
      * destruct (http_status r =? 400); [reflexivity|].
        destruct (http_status r =? 401); reflexivity.
    + destruct (http_status r =? 400); [reflexivity|].
      destruct (http_status r =? 401); reflexivity.
  - destruct (http_status r =? 400); [reflexivity|].
    destruct (http_status r =? 401); reflexivity.
Qed.

Lemma not_invalid_grant_false e :
  not_invalid_grant e = false <-> response_data_error e = Some "invalid_grant".
Proof.
  unfold not_invalid_grant. destruct (response_data_error e) as [err|].
  - rewrite negb_false_iff, String.eqb_eq. split; congruence.
  - split; discriminate.
Qed.

Lemma exchange_failed_spec env c e srv :
  c <> "" ->
  fst (exchange_failed env c e srv) = error_response env e
  /\ tokenStore (snd (exchange_failed env c e srv)) = tokenStore srv
  /\ usedCodes (snd (exchange_failed env c e srv))
     = if not_invalid_grant e then usedCodes srv ∖ {[c]} else usedCodes srv.
Proof.
  intros Hne. unfold exchange_failed.
  rewrite (truthy_str_nonempty _ Hne). simpl.
  destruct (not_invalid_grant e); auto.
Qed.

End CallbackFacts.

Section CallbackClaims.

Import Xero.

Implicit Types (env : Env) (up : Upstream) (now : nat -> Z).
Implicit Types (req : CallbackBody) (srv : Server) (c : string).

(** Case analysis on a request: no code, a code seen before, a new code. *)
Lemma callback_cases env up now req srv :
  (callback env up now req srv = (missing_code, srv, []))
  \/ (exists c, req_code req = Some c /\ c <> "" /\ c ∈ usedCodes srv
                /\ callback env up now req srv = (code_already_used, srv, []))
  \/ (exists c, req_code req = Some c /\ c <> "" /\ c ∉ usedCodes srv).
Proof.
  destruct (req_code req) as [c|] eqn:Hc.
  - destruct (decide (c = "")) as [->|Hne].
    + left. apply callback_missing. auto.
    + destruct (decide (c ∈ usedCodes srv)) as [Hin|Hout].
      * right. left. exists c. eauto using callback_already_used.
      * right. right. eauto.
  - left. apply callback_missing. auto.
Qed.

(** What a request with a new code leaves in [usedCodes]. *)
Lemma callback_fresh_usedCodes env up now req srv c :
  req_code req = Some c -> c <> "" -> c ∉ usedCodes srv ->
  usedCodes (snd (fst (callback env up now req srv)))
  = if retryable_failure up (snd (callback env up now req srv))
    then usedCodes srv
    else {[c]} ∪ usedCodes srv.
Proof.
  intros Hc Hne Hout. rewrite (callback_fresh _ _ _ _ _ _ Hc Hne Hout).
  destruct (js_length c <? 10)%nat; [reflexivity|].
  destruct (configured env) as [[[client_id client_secret] callback_url]|];
    [|reflexivity].
  cbv zeta. unfold retryable_failure.
  destruct (token_endpoint up _) as [d|e] eqn:Ht; cbn [fst snd]; rewrite Ht.
  - apply exchange_succeeded_spec.
  - destruct (exchange_failed_spec env c e (marked c srv) Hne) as (_ & _ & ->).
    destruct (not_invalid_grant e); [|reflexivity].
    simpl. set_solver.
Qed.

Lemma callback_fresh_success env up now req srv c :
  req_code req = Some c -> c <> "" -> c ∉ usedCodes srv ->
  is_success (fst (fst (callback env up now req srv))) = true ->
  retryable_failure up (snd (callback env up now req srv)) = false.
Proof.
  intros Hc Hne Hout. rewrite (callback_fresh _ _ _ _ _ _ Hc Hne Hout).
  destruct (js_length c <? 10)%nat; [reflexivity|].
  destruct (configured env) as [[[client_id client_secret] callback_url]|];
    [|reflexivity].
  cbv zeta. unfold retryable_failure.
  destruct (token_endpoint up _) as [d|e] eqn:Ht; cbn [fst snd]; rewrite Ht.
  - reflexivity.
  - destruct (exchange_failed_spec env c e (marked c srv) Hne) as (-> & _).
    rewrite error_response_not_success. discriminate.
Qed.

(** After a request that carried [c], the code is in [usedCodes] unless
    the exchange failed with an error other than [invalid_grant]. *)
Lemma callback_marks env up now req srv c :
  req_code req = Some c -> c <> "" ->
  retryable_failure up (snd (callback env up now req srv)) = false ->
  c ∈ usedCodes (snd (fst (callback env up now req srv))).
Proof.
  intros Hc Hne Hr.
  destruct (decide (c ∈ usedCodes srv)) as [Hin|Hout].
  - rewrite (callback_already_used _ _ _ _ _ _ Hc Hne Hin). exact Hin.
  - rewrite (callback_fresh_usedCodes _ _ _ _ _ _ Hc Hne Hout), Hr.
    set_solver.
Qed.

(** The empty string never enters [usedCodes]. *)
Lemma callback_keeps_empty_out env up now req srv :
  "" ∉ usedCodes srv ->
  "" ∉ usedCodes (snd (fst (callback env up now req srv))).
Proof.
  intros Hinv.
  destruct (callback_cases env up now req srv)
    as [-> | [(c & _ & _ & _ & ->) | (c & Hc & Hne & Hout)]];
    [exact Hinv | exact Hinv |].
  rewrite (callback_fresh_usedCodes _ _ _ _ _ _ Hc Hne Hout).
  destruct (retryable_failure _ _); set_solver.
Qed.

Lemma step_keeps_empty_out srv srv' :
  step srv srv' -> "" ∉ usedCodes srv -> "" ∉ usedCodes srv'.
Proof.
  intros Hstep Hinv. destruct Hstep as [env up now req srv| srv
    | env now_e now_s req srv | now userId srv | store' srv].
  - apply callback_keeps_empty_out. exact Hinv.
  - simpl. set_solver.
  - unfold store_tokens. destruct (st_userId req) as [u|]; [|exact Hinv].
    destruct (_ || _); exact Hinv.
  - unfold tokens_status. destruct userId as [u|]; [|exact Hinv].
    destruct (negb _); [exact Hinv|].
    destruct (TokenStore.hasValidTokens _ _ _). exact Hinv.
  - exact Hinv.
Qed.

Lemma reachable_no_empty_code srv : reachable srv -> "" ∉ usedCodes srv.
Proof.
  induction 1 as [|srv srv' _ IH Hstep].
  - simpl. set_solver.
  - eapply step_keeps_empty_out; eassumption.
Qed.

(** After a sweep every code is new again. *)
Lemma sweep_forgets srv c : c ∉ usedCodes (sweep srv).
Proof. simpl. apply not_elem_of_empty. Qed.

(** C1, as amended: on every reachable state a POST /callback whose code
    is in [usedCodes] is answered 400 [CodeAlreadyUsed] without a call to
    the token endpoint; of two consecutive calls with the same code at
    most one succeeds, and the second is answered [CodeAlreadyUsed]
    unless the exchange of the first failed with an error other than
    [invalid_grant]. *)
Theorem callback_replay env1 up1 now1 env2 up2 now2 req srv c :
  reachable srv ->
  req_code req = Some c ->
  (c ∈ usedCodes srv ->
     callback env1 up1 now1 req srv = (code_already_used, srv, [])
     /\ status code_already_used = 400
     /\ body code_already_used
        = ErrorBody CodeAlreadyUsed
            (Some "Please restart the OAuth flow to get a new authorization code"))
  /\ (is_success (fst (fst (callback env1 up1 now1 req srv)))
      && is_success
           (fst (fst (callback env2 up2 now2 req
                        (snd (fst (callback env1 up1 now1 req srv))))))
      = false)
  /\ (c <> "" ->
      retryable_failure up1 (snd (callback env1 up1 now1 req srv)) = false ->
      callback env2 up2 now2 req (snd (fst (callback env1 up1 now1 req srv)))
      = (code_already_used, snd (fst (callback env1 up1 now1 req srv)), [])).
Proof.
  intros Hreach Hc.
  assert (Hsecond : c <> "" ->
    retryable_failure up1 (snd (callback env1 up1 now1 req srv)) = false ->
    callback env2 up2 now2 req (snd (fst (callback env1 up1 now1 req srv)))
    = (code_already_used, snd (fst (callback env1 up1 now1 req srv)), [])).
  { intros Hne Hr.
    apply (callback_already_used _ _ _ _ _ c); [exact Hc | exact Hne |].
    apply callback_marks; assumption. }
  split; [|split; [|exact Hsecond]].
  - intros Hin.
    assert (Hne : c <> "").
    { intros ->. apply (reachable_no_empty_code srv Hreach Hin). }
    split; [|split; reflexivity].
    apply (callback_already_used _ _ _ _ _ c); assumption.
  - destruct (is_success (fst (fst (callback env1 up1 now1 req srv))))
      eqn:Hfirst; [|reflexivity].
    simpl.
    destruct (callback_cases env1 up1 now1 req srv)
      as [E | [(c' & _ & _ & _ & E) | (c' & Hc' & Hne & Hout)]].
    + rewrite E in Hfirst. discriminate.
    + rewrite E in Hfirst. discriminate.
    + assert (c' = c) as -> by congruence.
      rewrite Hsecond; [reflexivity | exact Hne |].
      eapply callback_fresh_success; eassumption.
Qed.

End CallbackClaims.

Section CallbackFailureClaims.

Import Xero.

Implicit Types (env : Env) (up : Upstream) (now : nat -> Z).
Implicit Types (req : CallbackBody) (srv : Server) (c : string).

Lemma unmarked_marked c srv :
  c ∉ usedCodes srv -> unmarked c (marked c srv) = srv.
Proof.
  intros Hout. destruct srv as [codes store]. unfold unmarked, marked.
  simpl in *. f_equal. set_solver.
Qed.

Lemma long_code_nonempty c : (10 <= js_length c)%nat -> c <> "".
Proof. intros H ->. simpl in H. lia. Qed.

(** The two outcomes of a failed exchange, by the error code the catch
    handler reads. *)
Lemma exchange_failure_by_error_code env up now req srv c
    client_id client_secret callback_url e :
  req_code req = Some c -> c ∉ usedCodes srv ->
  (10 <= js_length c)%nat ->
  configured env = Some (client_id, client_secret, callback_url) ->
  token_endpoint up
    {| grant_type := "authorization_code"; code := c;
       redirect_uri := callback_url; basic_user := client_id;
       basic_password := client_secret |} = Thrown e ->
  snd (callback env up now req srv)
  = [{| grant_type := "authorization_code"; code := c;
        redirect_uri := callback_url; basic_user := client_id;
        basic_password := client_secret |}]
  /\ fst (fst (callback env up now req srv)) = error_response env e
  /\ (response_data_error e = Some "invalid_grant" ->
      c ∈ usedCodes (snd (fst (callback env up now req srv)))
      /\ forall env' up' now',
           callback env' up' now' req (snd (fst (callback env up now req srv)))
           = (code_already_used, snd (fst (callback env up now req srv)), []))
  /\ (response_data_error e <> Some "invalid_grant" ->
      c ∉ usedCodes (snd (fst (callback env up now req srv)))
      /\ snd (fst (callback env up now req srv)) = srv
      /\ forall up' now' d,
           token_endpoint up'
             {| grant_type := "authorization_code"; code := c;
                redirect_uri := callback_url; basic_user := client_id;
                basic_password := client_secret |} = Resolved d ->
           snd (callback env up' now' req
                  (snd (fst (callback env up now req srv))))
           = [{| grant_type := "authorization_code"; code := c;
                 redirect_uri := callback_url; basic_user := client_id;
                 basic_password := client_secret |}]
           /\ is_success
                (fst (fst (callback env up' now' req
                             (snd (fst (callback env up now req srv))))))
              = true).
Proof.
  intros Hc Hout Hlen Hconf Hthrown.
  pose proof (long_code_nonempty c Hlen) as Hne.
  assert (Hlt : (js_length c <? 10)%nat = false)
    by (apply Nat.ltb_ge; exact Hlen).
  assert (Hrun : forall up' now' srv',
    c ∉ usedCodes srv' ->
    callback env up' now' req srv' =
    match token_endpoint up'
            {| grant_type := "authorization_code"; code := c;
               redirect_uri := callback_url; basic_user := client_id;
               basic_password := client_secret |} with
    | Resolved d =>
        (fst (exchange_succeeded env up' now' d (marked c srv')),
         snd (exchange_succeeded env up' now' d (marked c srv')),
         [{| grant_type := "authorization_code"; code := c;
             redirect_uri := callback_url; basic_user := client_id;
             basic_password := client_secret |}])
    | Thrown e' =>
        (fst (exchange_failed env c e' (marked c srv')),
         snd (exchange_failed env c e' (marked c srv')),
         [{| grant_type := "authorization_code"; code := c;
             redirect_uri := callback_url; basic_user := client_id;
             basic_password := client_secret |}])
    end).
  { intros up' now' srv' Hout'.
    rewrite (callback_fresh _ _ _ _ _ _ Hc Hne Hout'), Hlt, Hconf.
    reflexivity. }
  rewrite (Hrun up now srv Hout), Hthrown. cbn [fst snd].
  destruct (exchange_failed_spec env c e (marked c srv) Hne)
    as (Hres & Hstore & Hcodes).
  split; [reflexivity|]. split; [exact Hres|]. split.
  - intros Hgrant. apply not_invalid_grant_false in Hgrant.
    rewrite Hgrant in Hcodes.
    assert (Hin : c ∈ usedCodes (snd (exchange_failed env c e (marked c srv)))).
    { rewrite Hcodes. simpl. set_solver. }
    split; [exact Hin|]. intros env' up' now'.
    apply (callback_already_used _ _ _ _ _ c); assumption.
  - intros Hother.
    assert (Hretry : not_invalid_grant e = true).
    { destruct (not_invalid_grant e) eqn:E; [reflexivity|].
      apply not_invalid_grant_false in E. contradiction. }
    assert (Hback : snd (exchange_failed env c e (marked c srv)) = srv).
    { unfold exchange_failed. rewrite (truthy_str_nonempty _ Hne), Hretry.
      simpl. apply unmarked_marked. exact Hout. }
    rewrite Hback. split; [exact Hout|]. split; [reflexivity|].
    intros up' now' d Hresolved.
    rewrite (Hrun up' now' srv Hout), Hresolved. cbn [fst snd].
    split; [reflexivity|]. apply exchange_succeeded_spec.
Qed.

Lemma configured_Some env client_id client_secret callback_url :
  XERO_CLIENT_ID env = Some client_id -> client_id <> "" ->
  XERO_CLIENT_SECRET env = Some client_secret -> client_secret <> "" ->
  XERO_CALLBACK_URL env = Some callback_url -> callback_url <> "" ->
  configured env = Some (client_id, client_secret, callback_url).
Proof.
  intros H1 N1 H2 N2 H3 N3. unfold configured. rewrite H1, H2, H3.
  rewrite !truthy_str_nonempty by assumption. reflexivity.
Qed.

Lemma response_data_error_Some e x :
  response_data_error e = Some x <->
  exists r d, response e = Some r /\ data r = Some d /\ error d = Some x.
Proof.
  unfold response_data_error. split.
  - destruct (response e) as [r|]; [|discriminate].
    destruct (data r) as [d|] eqn:Ed; [|discriminate]. eauto.
  - intros (r & d & -> & -> & ->). reflexivity.
Qed.

(** C2: when the exchange of a POST /callback fails with an answer whose
    body says [error: "invalid_grant"], the code stays in [usedCodes] and a
    resubmission is answered 400 [CodeAlreadyUsed]; after any other failure
    (another error code, a body without one, no response at all) the code
    is out of [usedCodes] again, and a resubmission goes to the token
    endpoint and succeeds if that answers. *)
Theorem callback_exchange_failure env up now req srv c
    client_id client_secret callback_url e :
  req_code req = Some c -> c ∉ usedCodes srv ->
  (10 <= js_length c)%nat ->
  XERO_CLIENT_ID env = Some client_id -> client_id <> "" ->
  XERO_CLIENT_SECRET env = Some client_secret -> client_secret <> "" ->
  XERO_CALLBACK_URL env = Some callback_url -> callback_url <> "" ->
  token_endpoint up
    {| grant_type := "authorization_code"; code := c;
       redirect_uri := callback_url; basic_user := client_id;
       basic_password := client_secret |} = Thrown e ->
  snd (callback env up now req srv)
  = [{| grant_type := "authorization_code"; code := c;
        redirect_uri := callback_url; basic_user := client_id;
        basic_password := client_secret |}]
  /\ fst (fst (callback env up now req srv)) = error_response env e
  /\ is_success (fst (fst (callback env up now req srv))) = false
  /\ ((exists r d, response e = Some r /\ data r = Some d
                   /\ error d = Some "invalid_grant") ->
      c ∈ usedCodes (snd (fst (callback env up now req srv)))
      /\ forall env' up' now',
           callback env' up' now' req (snd (fst (callback env up now req srv)))
           = ({| status := 400;
                 body := ErrorBody "Authorization code has already been used"
                           (Some "Please restart the OAuth flow to get a new authorization code") |},
              snd (fst (callback env up now req srv)), []))
  /\ ((forall r d, response e = Some r -> data r = Some d ->
                   error d <> Some "invalid_grant") ->
      c ∉ usedCodes (snd (fst (callback env up now req srv)))
      /\ snd (fst (callback env up now req srv)) = srv
      /\ forall up' now' d,
           token_endpoint up'
             {| grant_type := "authorization_code"; code := c;
                redirect_uri := callback_url; basic_user := client_id;
                basic_password := client_secret |} = Resolved d ->
           snd (callback env up' now' req
                  (snd (fst (callback env up now req srv))))
           = [{| grant_type := "authorization_code"; code := c;
                 redirect_uri := callback_url; basic_user := client_id;
                 basic_password := client_secret |}]
           /\ status (fst (fst (callback env up' now' req
                                  (snd (fst (callback env up now req srv))))))
              = 200
           /\ is_success
                (fst (fst (callback env up' now' req
                             (snd (fst (callback env up now req srv))))))
              = true).
Proof.
  intros Hc Hout Hlen H1 N1 H2 N2 H3 N3 Hthrown.
  pose proof (configured_Some _ _ _ _ H1 N1 H2 N2 H3 N3) as Hconf.
  destruct (exchange_failure_by_error_code env up now req srv c client_id
              client_secret callback_url e Hc Hout Hlen Hconf Hthrown)
    as (Hcalls & Hres & Hgrant & Hother).
  split; [exact Hcalls|]. split; [exact Hres|].
  split; [rewrite Hres; apply error_response_not_success|]. split.
  - intros Hshape. apply response_data_error_Some in Hshape.
    destruct (Hgrant Hshape) as [Hin Hagain]. split; [exact Hin|].
    intros env' up' now'. apply Hagain.
  - intros Hshape.
    assert (Hne : response_data_error e <> Some "invalid_grant").
    { intros Habs. apply response_data_error_Some in Habs
        as (r & d & Hr & Hd & He). exact (Hshape r d Hr Hd He). }
    destruct (Hother Hne) as (Hnot & Hback & Hagain).
    split; [exact Hnot|]. split; [exact Hback|].
    intros up' now' d Hresolved.
    destruct (Hagain up' now' d Hresolved) as [Hc2 Hs2].
    split; [exact Hc2|]. split; [|exact Hs2].
    unfold is_success in Hs2.
    destruct (body (fst (fst (callback env up' now' req
                                (snd (fst (callback env up now req srv)))))));
      try discriminate Hs2.
    apply Z.eqb_eq. exact Hs2.
Qed.

(** C3: a POST /callback whose code is new and of a [length] below 10 (and
    not empty, which the step before answers as a missing code) is
    answered 400 with the malformed-code error; the code was put in
    [usedCodes] before the check and stays there, so a resubmission is
    answered [CodeAlreadyUsed]. *)
Theorem callback_malformed_code env up now req srv c :
  req_code req = Some c -> c <> "" -> (js_length c < 10)%nat ->
  c ∉ usedCodes srv ->
  callback env up now req srv = (malformed_code, marked c srv, [])
  /\ status malformed_code = 400
  /\ body malformed_code = ErrorBody MalformedCode None
  /\ c ∈ usedCodes (marked c srv)
  /\ tokenStore (marked c srv) = tokenStore srv
  /\ forall env' up' now',
       callback env' up' now' req (marked c srv)
       = (code_already_used, marked c srv, []).
Proof.
  intros Hc Hne Hlen Hout.
  assert (Hin : c ∈ usedCodes (marked c srv)) by (simpl; set_solver).
  split; [|repeat split; try exact Hin].
  - rewrite (callback_fresh _ _ _ _ _ _ Hc Hne Hout).
    apply Nat.ltb_lt in Hlen. rewrite Hlen. reflexivity.
  - intros env' up' now'.
    apply (callback_already_used _ _ _ _ _ c); assumption.
Qed.

End CallbackFailureClaims.

Section CallbackExamples.

Import Xero.

(** C1 as stated fails: the first call cannot reach the token endpoint (a
    network failure, answered 503), which takes the code out of
    [usedCodes]; the second call with the same code, with no sweep in
    between, is not answered [CodeAlreadyUsed] but exchanges the code. *)
Lemma callback_second_call_after_network_failure :
  let env := {| XERO_CLIENT_ID := Some "abc123";
                XERO_CLIENT_SECRET := Some "secret";
                XERO_CALLBACK_URL := Some "https://app.test/callback";
                XERO_SCOPES := None; XERO_TENANT_ID := None |} in
  let down := {| token_endpoint := fun _ =>
                   Thrown {| response := None; request := true |};
                 connections := fun _ => None;
                 decode_id_token := fun _ => None |} in
  let up := {| token_endpoint := fun _ =>
                 Resolved {| access_token := Some "tok";
                             refresh_token := None; id_token := None;
                             expires_in := Some 1800;
                             token_type := Some "Bearer" |};
               connections := fun _ => None;
               decode_id_token := fun _ => None |} in
  let req := {| req_code := Some "code-0123456789"; req_state := None |} in
  let first := callback env down (fun _ => 1000) req initial in
  let second := callback env up (fun _ => 2000) req (snd (fst first)) in
  status (fst (fst first)) = 503
  /\ snd (fst first) = initial
  /\ status (fst (fst second)) = 200
  /\ is_success (fst (fst second)) = true
  /\ fst (fst second) <> code_already_used
  /\ length (snd second) = 1%nat.
Proof.
  intros env down up req first second.
  assert (Hout : "code-0123456789" ∉ usedCodes initial) by (simpl; set_solver).
  assert (Hfirst : first
            = ({| status := 503;
                  body := ErrorBody
                    "Service unavailable - Could not reach Xero token endpoint"
                    None |},
               initial,
               [{| grant_type := "authorization_code";
                   code := "code-0123456789";
                   redirect_uri := "https://app.test/callback";
                   basic_user := "abc123"; basic_password := "secret" |}])).
  { unfold first.
    rewrite (callback_fresh env down (fun _ => 1000) req initial
               "code-0123456789" eq_refl ltac:(discriminate) Hout).
    cbn -[marked initial]. rewrite (unmarked_marked _ _ Hout). reflexivity. }
  assert (Hsecond : second
            = ({| status := 200;
                  body := TokensBody
                    {| access_token := Some "tok"; refresh_token := None;
                       id_token := None; expires_in := Some 1800;
                       token_type := Some "Bearer" |} None [] None |},
               marked "code-0123456789" initial,
               [{| grant_type := "authorization_code";
                   code := "code-0123456789";
                   redirect_uri := "https://app.test/callback";
                   basic_user := "abc123"; basic_password := "secret" |}])).
  { unfold second. rewrite Hfirst. cbn [fst snd].
    rewrite (callback_fresh env up (fun _ => 2000) req initial
               "code-0123456789" eq_refl ltac:(discriminate) Hout).
    reflexivity. }
  rewrite Hfirst, Hsecond. cbn [fst snd status].
  repeat split; try reflexivity. discriminate.
Qed.

Lemma callback_replay_witness :
  let env := {| XERO_CLIENT_ID := Some "abc123";
                XERO_CLIENT_SECRET := Some "secret";
                XERO_CALLBACK_URL := Some "https://app.test/callback";
                XERO_SCOPES := None; XERO_TENANT_ID := None |} in
  let up := {| token_endpoint := fun _ =>
                 Thrown {| response :=
                             Some {| http_status := 400;
                                     data := Some {| error := Some "invalid_grant";
                                                     error_description := None |} |};
                           request := true |};
               connections := fun _ => None;
               decode_id_token := fun _ => None |} in
  let req := {| req_code := Some "code-0123456789"; req_state := None |} in
  let first := callback env up (fun _ => 1000) req initial in
  callback env up (fun _ => 2000) req (snd (fst first))
  = (code_already_used, snd (fst first), []).
Proof.
  intros env up req first.
  assert (Hout : "code-0123456789" ∉ usedCodes initial) by (simpl; set_solver).
  destruct (callback_replay env up (fun _ => 1000) env up (fun _ => 2000)
              req initial "code-0123456789" reachable_initial eq_refl)
    as (_ & _ & Hsecond).
  apply Hsecond; [discriminate|].
  rewrite (callback_fresh env up (fun _ => 1000) req initial
             "code-0123456789" eq_refl ltac:(discriminate) Hout).
  reflexivity.
Defined.

Lemma callback_exchange_failure_witness :
  let env := {| XERO_CLIENT_ID := Some "abc123";
                XERO_CLIENT_SECRET := Some "secret";
                XERO_CALLBACK_URL := Some "https://app.test/callback";
                XERO_SCOPES := None; XERO_TENANT_ID := None |} in
  let refused := {| response :=
                      Some {| http_status := 400;
                              data := Some {| error := Some "invalid_grant";
                                              error_description := None |} |};
                    request := true |} in
  let unreachable := {| response := None; request := true |} in
  let dead := {| token_endpoint := fun _ => Thrown refused;
                 connections := fun _ => None;
                 decode_id_token := fun _ => None |} in
  let down := {| token_endpoint := fun _ => Thrown unreachable;
                 connections := fun _ => None;
                 decode_id_token := fun _ => None |} in
  let req := {| req_code := Some "code-0123456789"; req_state := None |} in
  ("code-0123456789"
     ∈ usedCodes (snd (fst (callback env dead (fun _ => 1000) req initial)))
   /\ fst (fst (callback env dead (fun _ => 2000) req
                  (snd (fst (callback env dead (fun _ => 1000) req initial)))))
      = {| status := 400;
           body := ErrorBody "Authorization code has already been used"
                     (Some "Please restart the OAuth flow to get a new authorization code") |})
  /\ fst (fst (callback env down (fun _ => 1000) req initial))
     = {| status := 503;
          body := ErrorBody
            "Service unavailable - Could not reach Xero token endpoint" None |}
  /\ snd (fst (callback env down (fun _ => 1000) req initial)) = initial.
Proof.
  intros env refused unreachable dead down req.
  assert (Hout : "code-0123456789" ∉ usedCodes initial) by (simpl; set_solver).
  destruct (callback_exchange_failure env dead (fun _ => 1000) req initial
              "code-0123456789" "abc123" "secret" "https://app.test/callback"
              refused eq_refl Hout ltac:(simpl; lia)
              eq_refl ltac:(discriminate) eq_refl ltac:(discriminate)
              eq_refl ltac:(discriminate) eq_refl)
    as (_ & _ & _ & Hgrant & _).
  destruct (callback_exchange_failure env down (fun _ => 1000) req initial
              "code-0123456789" "abc123" "secret" "https://app.test/callback"
              unreachable eq_refl Hout ltac:(simpl; lia)
              eq_refl ltac:(discriminate) eq_refl ltac:(discriminate)
              eq_refl ltac:(discriminate) eq_refl)
    as (_ & Hres & _ & _ & Hother).
  split; [|split].
  - destruct Hgrant as [Hin Hagain].
    + exists {| http_status := 400;
                data := Some {| error := Some "invalid_grant";
                                error_description := None |} |},
             {| error := Some "invalid_grant"; error_description := None |}.
      repeat split.
    + split; [exact Hin|]. rewrite (Hagain env dead (fun _ => 2000)).
      reflexivity.
  - rewrite Hres. reflexivity.
  - apply Hother. intros r d Hr. discriminate Hr.
Defined.

Lemma callback_malformed_code_witness :
  let env := {| XERO_CLIENT_ID := Some "abc123";
                XERO_CLIENT_SECRET := Some "secret";
                XERO_CALLBACK_URL := Some "https://app.test/callback";
                XERO_SCOPES := None; XERO_TENANT_ID := None |} in
  let up := {| token_endpoint := fun _ =>
                 Thrown {| response := None; request := true |};
               connections := fun _ => None;
               decode_id_token := fun _ => None |} in
  (callback env up (fun _ => 1000)
     {| req_code := Some "short"; req_state := None |} initial
   = (malformed_code, marked "short" initial, [])
   /\ "short" ∈ usedCodes (marked "short" initial))
  /\ callback env up (fun _ => 1000)
       {| req_code := Some "€€€€€"; req_state := None |} initial
     = (malformed_code, marked "€€€€€" initial, []).
Proof.
  intros env up.
  assert (Hout : forall c, c ∉ usedCodes initial)
    by (intros c; simpl; set_solver).
  destruct (callback_malformed_code env up (fun _ => 1000)
              {| req_code := Some "short"; req_state := None |} initial "short"
              eq_refl ltac:(discriminate) ltac:(simpl; lia) (Hout _))
    as (Hres & _ & _ & Hin & _).
  destruct (callback_malformed_code env up (fun _ => 1000)
              {| req_code := Some "€€€€€"; req_state := None |} initial "€€€€€"
              eq_refl ltac:(discriminate) ltac:(vm_compute; lia) (Hout _))
    as (Hres' & _).
  split; [split|]; assumption.
Defined.

End CallbackExamples.

(** * Further properties of the code *)

(** ** The token store *)

Section TokenStoreMore.

Import TokenStore.

Implicit Types (userId other : string) (st : gmap string Stored) (now : Z).

Lemma js_ge_mono now now' (x : js_num) :
  now <= now' -> js_ge (Num now) x = true -> js_ge (Num now') x = true.
Proof.
  destruct x as [y|]; simpl; [|discriminate].
  rewrite !Z.geb_le. lia.
Qed.

(** A second [storeUserTokens] for a user replaces the first record whole
    (nothing of the old tokens is merged in), and leaves every other user's
    record alone. *)
Theorem storeUserTokens_overwrites e1 s1 e2 s2 userId t1 t2 st :
  storeUserTokens e2 s2 userId t2 (storeUserTokens e1 s1 userId t1 st)
  = storeUserTokens e2 s2 userId t2 st
  /\ forall other, other <> userId ->
       storeUserTokens e2 s2 userId t2 (storeUserTokens e1 s1 userId t1 st)
         !! other = st !! other.
Proof.
  split.
  - unfold storeUserTokens. apply insert_insert_eq.
  - intros other Hne. rewrite !storeUserTokens_other by congruence.
    reflexivity.
Qed.

(** After [clearUserTokens] the user has no tokens, whatever the expiry of
    what was stored: the three readers answer [null], [false] and [null];
    other users keep theirs. *)
Theorem clearUserTokens_forgets now userId st :
  getUserTokens now userId (clearUserTokens userId st)
  = (None, clearUserTokens userId st)
  /\ fst (hasValidTokens now userId (clearUserTokens userId st)) = JBool false
  /\ fst (getAccessToken now userId (clearUserTokens userId st)) = None
  /\ forall other, other <> userId ->
       clearUserTokens userId st !! other = st !! other.
Proof.
  assert (H : getUserTokens now userId (clearUserTokens userId st)
              = (None, clearUserTokens userId st)).
  { apply getUserTokens_missing. unfold clearUserTokens.
    apply lookup_delete_eq. }
  split; [exact H|]. unfold hasValidTokens, getAccessToken. rewrite H.
  split; [reflexivity|]. split; [reflexivity|].
  intros other Hne. unfold clearUserTokens. apply lookup_delete_ne. congruence.
Qed.

(** A read changes nothing but the record it evicts: every other user's
    record is as before, and the user's own record is either untouched or
    gone. *)
Theorem getUserTokens_frame now userId st :
  (forall other, other <> userId ->
     snd (getUserTokens now userId st) !! other = st !! other)
  /\ (snd (getUserTokens now userId st) = st
      \/ (fst (getUserTokens now userId st) = None
          /\ snd (getUserTokens now userId st) = delete userId st)).
Proof.
  unfold getUserTokens. destruct (st !! userId) as [r|] eqn:E.
  - destruct (js_ge (Num now) (expires_at r)); simpl.
    + split; [|right; auto].
      intros other Hne. unfold clearUserTokens.
      apply lookup_delete_ne. congruence.
    + split; [reflexivity | left; reflexivity].
  - simpl. split; [reflexivity | left; reflexivity].
Qed.

(** Reading twice is reading once: a second [getUserTokens] at the same
    clock reading, on the store the first one left, gives the same answer
    and leaves that store as it is. *)
Theorem getUserTokens_idempotent now userId st :
  getUserTokens now userId (snd (getUserTokens now userId st))
  = (fst (getUserTokens now userId st), snd (getUserTokens now userId st)).
Proof.
  unfold getUserTokens at 2 3 4. destruct (st !! userId) as [r|] eqn:E.
  - destruct (js_ge (Num now) (expires_at r)) eqn:G; simpl.
    + apply getUserTokens_missing. unfold clearUserTokens.
      apply lookup_delete_eq.
    + apply getUserTokens_live; assumption.
  - simpl. apply getUserTokens_missing. exact E.
Qed.

(** Expiry is for good: when a read finds no valid tokens, no later read of
    the same store finds any; and a record still valid at some time was
    valid at every earlier time. *)
Theorem getUserTokens_expiry_monotone now now' userId st :
  now <= now' ->
  (fst (getUserTokens now userId st) = None ->
   fst (getUserTokens now' userId st) = None)
  /\ (forall r, fst (getUserTokens now' userId st) = Some r ->
        fst (getUserTokens now userId st) = Some r).
Proof.
  intros Hle. unfold getUserTokens. destruct (st !! userId) as [r|].
  - destruct (js_ge (Num now) (expires_at r)) eqn:G.
    + rewrite (js_ge_mono _ _ _ Hle G). cbn [fst].
      split; [auto | intros r0 H; discriminate H].
    + cbn [fst]. split; [intros H; discriminate H|].
      destruct (js_ge (Num now') (expires_at r)); cbn [fst];
        [intros r0 H; discriminate H | auto].
  - cbn [fst]. split; auto.
Qed.

(** What was stored is what the two projections hand to the invoice routes:
    until the expiry, [getAccessToken] and [getTenantId] return the access
    token and the tenant of the last [storeUserTokens]. *)
Theorem store_then_project now_e now_s now userId tokens st :
  (forall e, expires_in tokens = Some e -> now < now_e + e * 1000) ->
  fst (getAccessToken now userId
         (storeUserTokens now_e now_s userId tokens st))
  = access_token tokens
  /\ fst (getTenantId now userId
            (storeUserTokens now_e now_s userId tokens st))
     = tenant_id tokens.
Proof.
  intros Hlife.
  assert (H : getUserTokens now userId
                (storeUserTokens now_e now_s userId tokens st)
              = (Some {| s_access_token := access_token tokens;
                         s_refresh_token := refresh_token tokens;
                         expires_at :=
                           js_add (Num now_e)
                             (js_mul (to_number (expires_in tokens)) (Num 1000));
                         s_tenant_id := tenant_id tokens;
                         stored_at := now_s |},
                 storeUserTokens now_e now_s userId tokens st)).
  { apply getUserTokens_live; [apply storeUserTokens_lookup|].
    simpl. destruct (expires_in tokens) as [e|]; simpl; [|reflexivity].
    apply not_true_is_false. rewrite Z.geb_le.
    specialize (Hlife e eq_refl). lia. }
  unfold getAccessToken, getTenantId. rewrite H. split; reflexivity.
Qed.

End TokenStoreMore.

Section TokenStoreMoreExamples.

Import TokenStore.

Lemma getUserTokens_expiry_monotone_witness :
  let st : gmap string Stored :=
    {[ "user@example.com" :=
         {| s_access_token := Some "tok"; s_refresh_token := None;
            expires_at := Num 5000; s_tenant_id := None; stored_at := 1000 |} ]} in
  fst (getUserTokens 6000 "user@example.com" st) = None.
Proof.
  intros st.
  apply (getUserTokens_expiry_monotone 5000 6000 "user@example.com" st);
    [lia | reflexivity].
Defined.

Lemma store_then_project_witness :
  let tokens := {| access_token := Some "tok"; refresh_token := None;
                   expires_in := Some 1800; tenant_id := Some "tenant-1" |} in
  fst (getAccessToken 2000 "user@example.com"
         (storeUserTokens 1000 1000 "user@example.com" tokens ∅))
  = Some "tok"
  /\ fst (getTenantId 2000 "user@example.com"
            (storeUserTokens 1000 1000 "user@example.com" tokens ∅))
     = Some "tenant-1".
Proof.
  intros tokens.
  apply (store_then_project 1000 1000 2000 "user@example.com" tokens ∅).
  intros e [= <-]. lia.
Defined.

End TokenStoreMoreExamples.

(** ** The middleware *)

Section MiddlewareMore.

Import Middleware Routes.

Implicit Types (payload : Payload) (now : Z) (h scheme rest : string).

Lemma count_char_cons_zero (c x : ascii) (s : string) :
  count_char c (String x s) = 0%nat ->
  Ascii.eqb x c = false /\ count_char c s = 0%nat.
Proof.
  simpl. destruct (Ascii.eqb x c); simpl; [discriminate | auto].
Qed.

Lemma split_space_no_space h :
  count_char " " h = 0%nat -> split_space h = [h].
Proof.
  induction h as [|x h IH]; intros H; [reflexivity|].
  apply count_char_cons_zero in H as [Hx Hh].
  simpl. rewrite Hx, (IH Hh). reflexivity.
Qed.

Lemma split_space_first_word scheme rest :
  count_char " " scheme = 0%nat ->
  split_space (scheme +:+ " " +:+ rest) = scheme :: split_space rest.
Proof.
  induction scheme as [|x scheme IH]; intros H; [reflexivity|].
  apply count_char_cons_zero in H as [Hx Hh].
  change (String x scheme +:+ " " +:+ rest)
    with (String x (scheme +:+ " " +:+ rest)).
  simpl. rewrite Hx, (IH Hh). reflexivity.
Qed.

Lemma bearer_token_second_word scheme rest :
  count_char " " scheme = 0%nat ->
  bearer_token (Some (scheme +:+ " " +:+ rest))
  = nth_error (split_space rest) 0.
Proof.
  intros H. unfold bearer_token.
  rewrite truthy_str_nonempty by (destruct scheme; discriminate).
  rewrite (split_space_first_word _ _ H). reflexivity.
Qed.

Section WithDecoder.

Variable jwt_decode : string -> option Payload.

(** A request without an [Authorization] header, or with one that has no
    space in it (["Bearer"], a bare token), is answered 401 before the
    token decoder is ever consulted. *)
Theorem authenticateToken_no_token now h :
  count_char " " h = 0%nat ->
  authenticateToken jwt_decode now (Some h) = Rejected 401 AccessTokenRequired
  /\ authenticateToken jwt_decode now None = Rejected 401 AccessTokenRequired.
Proof.
  intros H. split; [|reflexivity].
  unfold authenticateToken, bearer_token.
  destruct (truthy_str (Some h)); [|reflexivity].
  rewrite (split_space_no_space _ H). reflexivity.
Qed.

(** The word before the token is not looked at: any scheme name without a
    space (["Basic"], ["Token"], the empty word) is treated exactly as
    ["Bearer"]. *)
Theorem authenticateToken_ignores_scheme now scheme rest :
  count_char " " scheme = 0%nat ->
  authenticateToken jwt_decode now (Some (scheme +:+ " " +:+ rest))
  = authenticateToken jwt_decode now (Some ("Bearer" +:+ " " +:+ rest)).
Proof.
  intros H. unfold authenticateToken.
  rewrite (bearer_token_second_word _ _ H).
  rewrite (bearer_token_second_word "Bearer" rest eq_refl). reflexivity.
Qed.

(** The middleware refuses with 401 or 403 only: 401 exactly when no token
    could be read from the header, 403 for every token it read and turned
    away. *)
Theorem authenticateToken_rejection_status now authHeader st e :
  authenticateToken jwt_decode now authHeader = Rejected st e ->
  (st = 401 /\ truthy_str (bearer_token authHeader) = false)
  \/ (st = 403 /\ truthy_str (bearer_token authHeader) = true).
Proof.
  unfold authenticateToken.
  destruct (truthy_str (bearer_token authHeader)) eqn:Ht; simpl.
  2:{ intros [= <- _]. left. auto. }
  destruct (bearer_token authHeader) as [tok|]; [|discriminate Ht].
  destruct (jwt_decode tok) as [payload|].
  2:{ intros [= <- _]. right. auto. }
  intros H. right. split; [|reflexivity].
  unfold check_payload in H.
  destruct (negb _ || negb _); [injection H as <- _; reflexivity|].
  destruct (exp_check now payload); [injection H as <- _; reflexivity|].
  destruct (is_xero payload).
  - destruct (negb _); [injection H as <- _; reflexivity | discriminate H].
  - destruct (negb _); [injection H as <- _; reflexivity | discriminate H].
Qed.

(** The fields of [req.user] after an accepted payload. *)
Lemma accepted_user_fields now payload user :
  check_payload now payload = Next user ->
  exists uid,
    uid <> "" /\ user_id user = Some uid
    /\ request_user_id user = Some uid
    /\ truthy_str (user_email user) = true
    /\ truthy_str (user_sub user) = true.
Proof.
  intros H. apply check_payload_Next in H
    as (_ & _ & _ & Hc & Ht & Hid & Hemail & Hsub).
  pose proof Ht as Ht'.
  apply truthy_str_Some in Ht' as (uid & Hu & Hne).
  assert (He : truthy_str (user_email user) = true
               /\ user_email user = user_id user).
  { rewrite Hemail. rewrite <- Hc in Hid. unfold or_str, first_identifier in *.
    rewrite Hc in *.
    destruct (truthy_str (email payload)) eqn:E; auto. }
  assert (Hs : truthy_str (user_sub user) = true).
  { rewrite Hsub. unfold or_str.
    destruct (truthy_str (sub payload)) eqn:E; auto. }
  destruct He as [He1 He2].
  exists uid. repeat split; try assumption.
  unfold request_user_id, or_str. rewrite He1, He1, He2. exact Hu.
Qed.

(** For every request the middleware lets through, [req.user.email],
    [req.user.sub] and [req.user.id] are all non-empty, and the identifier
    the routes compute, [req.user.email || req.user.sub || req.user.id], is
    the one the middleware derived: the routes' own "no user identifier"
    refusal cannot fire. *)
Theorem authenticated_user_is_normalised now authHeader user :
  authenticateToken jwt_decode now authHeader = Next user ->
  exists uid,
    uid <> "" /\ user_id user = Some uid
    /\ request_user_id user = Some uid
    /\ truthy_str (user_email user) = true
    /\ truthy_str (user_sub user) = true.
Proof.
  intros H. apply authenticateToken_Next in H as (tok & _ & _ & H).
  eapply accepted_user_fields. exact H.
Qed.

Lemma exp_check_mono now now' payload :
  now <= now' -> exp_check now payload = true -> exp_check now' payload = true.
Proof.
  intros Hle H. apply exp_check_true in H as (e & He & Hnz & Hexp).
  apply exp_check_true. exists e. repeat split; try assumption. lia.
Qed.

Lemma check_payload_same_exp_check now now' payload :
  exp_check now payload = exp_check now' payload ->
  check_payload now payload = check_payload now' payload.
Proof. intros H. unfold check_payload. rewrite H. reflexivity. Qed.

Lemma check_payload_TokenExpired now payload :
  check_payload now payload = Rejected 403 TokenExpired ->
  exp_check now payload = true.
Proof.
  unfold check_payload.
  destruct (negb _ || negb _); [discriminate|].
  destruct (exp_check now payload); [reflexivity|].
  destruct (is_xero payload); destruct (negb _); discriminate.
Qed.

(** Time only ever turns an accepted token into an expired one: a request
    accepted at one clock reading is accepted, with the same user, at every
    earlier reading, and a token refused as expired stays refused as
    expired at every later one. *)
Theorem authenticateToken_time_monotone now now' authHeader :
  now <= now' ->
  (forall user, authenticateToken jwt_decode now' authHeader = Next user ->
                authenticateToken jwt_decode now authHeader = Next user)
  /\ (authenticateToken jwt_decode now authHeader = Rejected 403 TokenExpired ->
      authenticateToken jwt_decode now' authHeader = Rejected 403 TokenExpired).
Proof.
  intros Hle. unfold authenticateToken.
  destruct (truthy_str (bearer_token authHeader)); simpl;
    [|split; [intros user H; discriminate H | intros H; discriminate H]].
  destruct (bearer_token authHeader) as [tok|];
    [|split; [intros user H; discriminate H | intros H; discriminate H]].
  destruct (jwt_decode tok) as [payload|];
    [|split; [intros user H; discriminate H | intros H; discriminate H]].
  split.
  - intros user H. rewrite <- H. apply check_payload_same_exp_check.
    apply check_payload_Next in H as (_ & _ & H & _). rewrite H.
    destruct (exp_check now payload) eqn:E; [|reflexivity].
    rewrite (exp_check_mono _ _ _ Hle E) in H. discriminate H.
  - intros H. rewrite <- H. symmetry. apply check_payload_same_exp_check.
    apply check_payload_TokenExpired in H. rewrite H.
    symmetry. eapply exp_check_mono; eassumption.
Qed.

End WithDecoder.

End MiddlewareMore.

Section MiddlewareMoreExamples.

Import Middleware Routes.

Lemma authenticateToken_no_token_witness :
  authenticateToken (fun _ => None) 0 (Some "Bearer")
  = Rejected 401 AccessTokenRequired.
Proof.
  apply (authenticateToken_no_token (fun _ => None) 0 "Bearer"). reflexivity.
Defined.

Lemma authenticateToken_ignores_scheme_witness :
  authenticateToken (fun _ => None) 0 (Some "Basic h.p.s")
  = authenticateToken (fun _ => None) 0 (Some "Bearer h.p.s").
Proof.
  apply (authenticateToken_ignores_scheme (fun _ => None) 0 "Basic" "h.p.s").
  reflexivity.
Defined.

Lemma authenticateToken_rejection_status_witness :
  truthy_str (bearer_token (Some "Bearer h.p.s")) = true.
Proof.
  destruct (authenticateToken_rejection_status (fun _ => None) 0
              (Some "Bearer h.p.s") 403 InvalidTokenFormat eq_refl)
    as [[H _] | [_ H]]; [discriminate H | exact H].
Defined.

Lemma authenticated_user_is_normalised_witness :
  let user := {| claims := {| iss := Some "https://identity.xero.com";
                              aud := Some "client"; exp := None;
                              email := None; sub := Some "sub-1";
                              xero_userid := None |};
                 user_email := Some "sub-1"; user_id := Some "sub-1";
                 user_sub := Some "sub-1" |} in
  exists uid, uid <> "" /\ request_user_id user = Some uid.
Proof.
  intros user.
  destruct (authenticated_user_is_normalised
              (fun _ => Some (claims user)) 0 (Some "Bearer h.p.s") user eq_refl)
    as (uid & Hne & _ & Hreq & _).
  exists uid. split; assumption.
Defined.

Lemma authenticateToken_time_monotone_witness :
  authenticateToken
    (fun _ => Some {| iss := Some "https://identity.xero.com";
                      aud := Some "client"; exp := Some 1700000000;
                      email := Some "user@example.com";
                      sub := None; xero_userid := None |})
    1700000001000 (Some "Bearer h.p.s")
  = Rejected 403 TokenExpired.
Proof.
  apply (authenticateToken_time_monotone _ 1700000000000 1700000001000
           (Some "Bearer h.p.s")); [lia | reflexivity].
Defined.

End MiddlewareMoreExamples.

(** ** The router of the Xero flow *)

Section XeroMore.

Import Xero.

Implicit Types (env : Env) (up : Upstream) (now : nat -> Z).
Implicit Types (req : CallbackBody) (srv : Server) (c : string).

(** The request that reaches the token endpoint, and what the handler does
    with the answer. *)
Lemma callback_exchange env up now req srv c client_id client_secret callback_url :
  req_code req = Some c -> c ∉ usedCodes srv -> (10 <= js_length c)%nat ->
  configured env = Some (client_id, client_secret, callback_url) ->
  callback env up now req srv =
  match token_endpoint up
          {| grant_type := "authorization_code"; code := c;
             redirect_uri := callback_url; basic_user := client_id;
             basic_password := client_secret |} with
  | Resolved d =>
      (fst (exchange_succeeded env up now d (marked c srv)),
       snd (exchange_succeeded env up now d (marked c srv)),
       [{| grant_type := "authorization_code"; code := c;
           redirect_uri := callback_url; basic_user := client_id;
           basic_password := client_secret |}])
  | Thrown e =>
      (fst (exchange_failed env c e (marked c srv)),
       snd (exchange_failed env c e (marked c srv)),
       [{| grant_type := "authorization_code"; code := c;
           redirect_uri := callback_url; basic_user := client_id;
           basic_password := client_secret |}])
  end.
Proof.
  intros Hc Hout Hlen Hconf.
  rewrite (callback_fresh _ _ _ _ _ _ Hc (long_code_nonempty c Hlen) Hout).
  apply Nat.ltb_ge in Hlen. rewrite Hlen, Hconf. reflexivity.
Qed.

(** Whatever went wrong at the token endpoint, the client is answered 400,
    401, 500 or 503, never a success; 503 exactly when no response came
    back from a request that was sent, and 401 only for a 401 of the
    provider that carried no error code. *)
Theorem error_response_status env e :
  (status (error_response env e) = 400 \/ status (error_response env e) = 401
   \/ status (error_response env e) = 500 \/ status (error_response env e) = 503)
  /\ (status (error_response env e) = 503 <->
      response e = None /\ request e = true)
  /\ (status (error_response env e) = 401 ->
      exists r, response e = Some r /\ http_status r = 401
                /\ truthy_str (response_data_error e) = false).
Proof.
  assert (Hby : forall r,
    (status (by_status r) = 400 \/ status (by_status r) = 401
     \/ status (by_status r) = 500)
    /\ (status (by_status r) = 401 -> http_status r = 401)).
  { intros r. unfold by_status.
    destruct (http_status r =? 400) eqn:E4; simpl; [split; [auto | discriminate]|].
    destruct (http_status r =? 401) eqn:E1; simpl.
    - apply Z.eqb_eq in E1. auto.
    - split; [auto | discriminate]. }
  unfold error_response, response_data_error.
  destruct (response e) as [r|].
  - destruct (Hby r) as [Hst H401].
    assert (Hcase :
      forall res,
        res = by_status r \/ (exists m d, res = {| status := 400; body := ErrorBody m d |}) ->
        (status res = 400 \/ status res = 401 \/ status res = 500
         \/ status res = 503)
        /\ (status res = 503 <-> Some r = None /\ request e = true)).
    { intros res [-> | (m & d & ->)].
      - split; [tauto|]. split; [|intros [H _]; discriminate H].
        intros H. destruct Hst as [H'|[H'|H']]; rewrite H' in H; discriminate H.
      - simpl. split; [auto|]. split; [discriminate | intros [H _]; discriminate H]. }
    destruct (data r) as [d|].
    + destruct (error d) as [err|].
      * destruct (truthy_str (Some err)) eqn:Et.
        -- destruct (explain env err d) as [m dt].
           destruct (Hcase {| status := 400; body := ErrorBody m dt |}) as [H1 H2];
             [right; eauto|].
           split; [exact H1|]. split; [exact H2|]. simpl. discriminate.
        -- destruct (Hcase (by_status r)) as [H1 H2]; [auto|].
           split; [exact H1|]. split; [exact H2|]. eauto.
      * destruct (Hcase (by_status r)) as [H1 H2]; [auto|].
        split; [exact H1|]. split; [exact H2|]. eauto.
    + destruct (Hcase (by_status r)) as [H1 H2]; [auto|].
      split; [exact H1|]. split; [exact H2|]. eauto.
  - destruct (request e); simpl.
    + split; [auto|]. split; [tauto | discriminate].
    + split; [auto|]. split; [|discriminate].
      split; [discriminate | intros [_ H]; discriminate H].
Qed.

(** A POST /callback changes the used status of no code but its own. *)
Theorem callback_other_codes env up now req srv x :
  req_code req <> Some x ->
  (x ∈ usedCodes (snd (fst (callback env up now req srv)))
   <-> x ∈ usedCodes srv).
Proof.
  intros Hx.
  destruct (callback_cases env up now req srv)
    as [-> | [(c & _ & _ & _ & ->) | (c & Hc & Hne & Hout)]];
    [reflexivity | reflexivity |].
  assert (x <> c) by congruence.
  rewrite (callback_fresh_usedCodes _ _ _ _ _ _ Hc Hne Hout).
  destruct (retryable_failure _ _); set_solver.
Qed.

(** Only a successful exchange writes the token store: every POST
    /callback that is answered with anything but the tokens leaves the
    stored tokens of all users as they were. *)
Theorem callback_failure_keeps_tokens env up now req srv :
  is_success (fst (fst (callback env up now req srv))) = false ->
  tokenStore (snd (fst (callback env up now req srv))) = tokenStore srv.
Proof.
  destruct (callback_cases env up now req srv)
    as [-> | [(c & _ & _ & _ & ->) | (c & Hc & Hne & Hout)]];
    [reflexivity | reflexivity |].
  rewrite (callback_fresh _ _ _ _ _ _ Hc Hne Hout).
  destruct (js_length c <? 10)%nat; [reflexivity|].
  destruct (configured env) as [[[client_id client_secret] callback_url]|];
    [|reflexivity].
  cbv zeta. destruct (token_endpoint up _) as [d|e]; cbn [fst snd].
  - destruct (exchange_succeeded_spec env up now d (marked c srv)) as (_ & -> & _).
    discriminate.
  - intros _. apply (exchange_failed_spec env c e (marked c srv) Hne).
Qed.

Lemma configured_None env :
  truthy_str (XERO_CLIENT_ID env) = false
  \/ truthy_str (XERO_CLIENT_SECRET env) = false
  \/ truthy_str (XERO_CALLBACK_URL env) = false ->
  configured env = None.
Proof.
  unfold configured.
  destruct (XERO_CLIENT_ID env) as [i|], (XERO_CLIENT_SECRET env) as [x|],
    (XERO_CALLBACK_URL env) as [u|]; try reflexivity.
  intros [H | [H | H]]; rewrite H; cbn [negb orb];
    rewrite ?orb_true_r; reflexivity.
Qed.

Lemma configured_Some_inv env client_id client_secret callback_url :
  configured env = Some (client_id, client_secret, callback_url) ->
  (XERO_CLIENT_ID env = Some client_id /\ client_id <> "")
  /\ (XERO_CLIENT_SECRET env = Some client_secret /\ client_secret <> "")
  /\ (XERO_CALLBACK_URL env = Some callback_url /\ callback_url <> "").
Proof.
  unfold configured.
  destruct (XERO_CLIENT_ID env) as [i|], (XERO_CLIENT_SECRET env) as [x|],
    (XERO_CALLBACK_URL env) as [u|]; try discriminate.
  destruct (truthy_str (Some i)) eqn:Ei; [|discriminate].
  destruct (truthy_str (Some x)) eqn:Ex; [|discriminate].
  destruct (truthy_str (Some u)) eqn:Eu; [|discriminate].
  cbn [negb orb]. intros [= <- <- <-].
  apply truthy_str_Some in Ei as (? & [= <-] & ?).
  apply truthy_str_Some in Ex as (? & [= <-] & ?).
  apply truthy_str_Some in Eu as (? & [= <-] & ?).
  auto.
Qed.

(** A POST /callback sends at most one request to the token endpoint, and
    only for a new code of 10 characters or more on a configured server;
    the request carries that very code, the grant type
    [authorization_code], the configured callback URL and the configured
    client credentials. *)
Theorem callback_token_requests env up now req srv :
  (length (snd (callback env up now req srv)) <= 1)%nat
  /\ forall call, In call (snd (callback env up now req srv)) ->
       grant_type call = "authorization_code"
       /\ req_code req = Some (code call)
       /\ (code call ∉ usedCodes srv)
       /\ (10 <= js_length (code call))%nat
       /\ (XERO_CLIENT_ID env = Some (basic_user call)
           /\ basic_user call <> "")
       /\ (XERO_CLIENT_SECRET env = Some (basic_password call)
           /\ basic_password call <> "")
       /\ (XERO_CALLBACK_URL env = Some (redirect_uri call)
           /\ redirect_uri call <> "").
Proof.
  destruct (callback_cases env up now req srv)
    as [-> | [(c & _ & _ & _ & ->) | (c & Hc & Hne & Hout)]];
    [simpl; split; [lia | tauto] | simpl; split; [lia | tauto] |].
  rewrite (callback_fresh _ _ _ _ _ _ Hc Hne Hout).
  destruct (js_length c <? 10)%nat eqn:Hlen;
    [simpl; split; [lia | tauto]|].
  apply Nat.ltb_ge in Hlen.
  destruct (configured env) as [[[client_id client_secret] callback_url]|]
    eqn:Hconf; [|simpl; split; [lia | tauto]].
  apply configured_Some_inv in Hconf as (Hid & Hsecret & Hurl).
  cbv zeta.
  destruct (token_endpoint up _) as [d|e]; cbn [fst snd length];
    (split; [lia|]); intros call [<- | []]; simpl; auto 10.
Qed.

(** A code that arrives while the server lacks its client id, client secret
    or callback URL is lost: the request is answered 500 without a call to
    the token endpoint, the code stays marked used, and the same code is
    refused as already used even once the configuration is in place. *)
Theorem callback_misconfigured_burns_code env up now req srv c :
  req_code req = Some c -> c ∉ usedCodes srv -> (10 <= js_length c)%nat ->
  truthy_str (XERO_CLIENT_ID env) = false
  \/ truthy_str (XERO_CLIENT_SECRET env) = false
  \/ truthy_str (XERO_CALLBACK_URL env) = false ->
  callback env up now req srv = (misconfigured, marked c srv, [])
  /\ status misconfigured = 500
  /\ forall env' up' now',
       callback env' up' now' req (marked c srv)
       = (code_already_used, marked c srv, []).
Proof.
  intros Hc Hout Hlen Hmiss.
  pose proof (configured_None _ Hmiss) as Hconf.
  pose proof (long_code_nonempty c Hlen) as Hne.
  split; [|split; [reflexivity|]].
  - rewrite (callback_fresh _ _ _ _ _ _ Hc Hne Hout).
    apply Nat.ltb_ge in Hlen. rewrite Hlen, Hconf. reflexivity.
  - intros env' up' now'.
    apply (callback_already_used _ _ _ _ _ c); [assumption..|].
    simpl. set_solver.
Qed.

(** The sweep ends the replay protection: a code that was marked used is,
    after the next tick of the timer, sent to the token endpoint again, and
    exchanged if the provider accepts it. *)
Theorem sweep_reopens_used_codes env up now req srv c
    client_id client_secret callback_url :
  req_code req = Some c -> c ∈ usedCodes srv -> (10 <= js_length c)%nat ->
  XERO_CLIENT_ID env = Some client_id -> client_id <> "" ->
  XERO_CLIENT_SECRET env = Some client_secret -> client_secret <> "" ->
  XERO_CALLBACK_URL env = Some callback_url -> callback_url <> "" ->
  callback env up now req srv = (code_already_used, srv, [])
  /\ snd (callback env up now req (sweep srv))
     = [{| grant_type := "authorization_code"; code := c;
           redirect_uri := callback_url; basic_user := client_id;
           basic_password := client_secret |}]
  /\ (forall d,
        token_endpoint up
          {| grant_type := "authorization_code"; code := c;
             redirect_uri := callback_url; basic_user := client_id;
             basic_password := client_secret |} = Resolved d ->
        is_success (fst (fst (callback env up now req (sweep srv)))) = true).
Proof.
  intros Hc Hin Hlen H1 N1 H2 N2 H3 N3.
  pose proof (configured_Some _ _ _ _ H1 N1 H2 N2 H3 N3) as Hconf.
  pose proof (long_code_nonempty c Hlen) as Hne.
  split; [apply (callback_already_used _ _ _ _ _ c); assumption|].
  rewrite (callback_exchange env up now req (sweep srv) c _ _ _ Hc
             (sweep_forgets srv c) Hlen Hconf).
  split.
  - destruct (token_endpoint up _); reflexivity.
  - intros d ->. cbn [fst]. apply exchange_succeeded_spec.
Qed.

End XeroMore.

Section XeroPersistence.

Import TokenStore Routes Xero CallbackParts.

Implicit Types (env : Env) (up : Upstream) (now : nat -> Z).
Implicit Types (req : CallbackBody) (srv : Server) (c : string).

(** The record [persist] writes, for the clock readings [k] and [k + 1]. *)
Lemma persisted_lookup env up now d (k : nat) userId st :
  storeUserTokens (now k) (now (S k)) userId (tokensToStore env up d) st
    !! userId
  = Some {| s_access_token := Xero.access_token d;
            s_refresh_token := Xero.refresh_token d;
            expires_at :=
              js_add (Num (now k))
                     (js_mul (to_number (Xero.expires_in d)) (Num 1000));
            s_tenant_id := tenant_id (tokensToStore env up d);
            stored_at := now (S k) |}.
Proof. apply storeUserTokens_lookup. Qed.

Lemma exchange_succeeded_persist env up now d srv :
  exchange_succeeded env up now d srv
  = ({| status := 200;
        body := TokensBody d (user_info up d) (tenants up d)
                  (fst (persist env now d (user_info up d) (tenants up d)
                          (tokenStore srv))) |},
     {| usedCodes := usedCodes srv;
        tokenStore := snd (persist env now d (user_info up d) (tenants up d)
                             (tokenStore srv)) |}).
Proof.
  unfold exchange_succeeded. fold (user_info up d). fold (tenants up d).
  destruct (persist _ _ _ _ _ _). reflexivity.
Qed.

Lemma persist_email_and_sub env up now d ui e s st :
  Xero.email ui = Some e -> e <> "" -> Xero.sub ui = Some s -> s <> "" ->
  s <> e ->
  persist env now d (Some ui) (tenants up d) st
  = (Some e,
     storeUserTokens (now 2%nat) (now 3%nat) s (tokensToStore env up d)
       (storeUserTokens (now 0%nat) (now 1%nat) e (tokensToStore env up d) st)).
Proof.
  intros He Hene Hs Hsne Hdiff. unfold persist. rewrite He, Hs.
  rewrite !truthy_str_nonempty by assumption.
  assert (Hd : differs s (Some e) = true).
  { unfold differs. apply negb_true_iff, String.eqb_neq. exact Hdiff. }
  rewrite Hd. cbn [orb andb]. unfold or_str.
  rewrite truthy_str_nonempty by assumption. reflexivity.
Qed.

(** A successful exchange whose answer has no [id_token] hands the tokens
    to the client and stores nothing: the code is used up, and the token
    store is as it was, so no later request can find these tokens. *)
Theorem callback_without_id_token_stores_nothing env up now req srv c
    client_id client_secret callback_url d :
  req_code req = Some c -> c ∉ usedCodes srv -> (10 <= js_length c)%nat ->
  XERO_CLIENT_ID env = Some client_id -> client_id <> "" ->
  XERO_CLIENT_SECRET env = Some client_secret -> client_secret <> "" ->
  XERO_CALLBACK_URL env = Some callback_url -> callback_url <> "" ->
  token_endpoint up
    {| grant_type := "authorization_code"; code := c;
       redirect_uri := callback_url; basic_user := client_id;
       basic_password := client_secret |} = Resolved d ->
  truthy_str (id_token d) = false ->
  fst (fst (callback env up now req srv))
  = {| status := 200; body := TokensBody d None (tenants up d) None |}
  /\ snd (fst (callback env up now req srv)) = marked c srv
  /\ tokenStore (snd (fst (callback env up now req srv))) = tokenStore srv.
Proof.
  intros Hc Hout Hlen H1 N1 H2 N2 H3 N3 Hres Hid.
  pose proof (configured_Some _ _ _ _ H1 N1 H2 N2 H3 N3) as Hconf.
  rewrite (callback_exchange _ _ _ _ _ _ _ _ _ Hc Hout Hlen Hconf), Hres.
  cbn [fst snd]. rewrite exchange_succeeded_persist.
  assert (Hui : user_info up d = None).
  { unfold user_info. destruct (id_token d) as [t|]; [|reflexivity].
    rewrite Hid. reflexivity. }
  rewrite Hui. cbn [persist fst snd]. auto.
Qed.

(** A successful exchange whose [id_token] names an email and a different
    subject stores the same tokens twice, under the email and under the
    subject; the answer names the email as [userId]; the tokens of every
    other user are untouched. *)
Theorem callback_stores_under_email_and_sub env up now req srv c
    client_id client_secret callback_url d ui e s :
  req_code req = Some c -> c ∉ usedCodes srv -> (10 <= js_length c)%nat ->
  XERO_CLIENT_ID env = Some client_id -> client_id <> "" ->
  XERO_CLIENT_SECRET env = Some client_secret -> client_secret <> "" ->
  XERO_CALLBACK_URL env = Some callback_url -> callback_url <> "" ->
  token_endpoint up
    {| grant_type := "authorization_code"; code := c;
       redirect_uri := callback_url; basic_user := client_id;
       basic_password := client_secret |} = Resolved d ->
  user_info up d = Some ui ->
  Xero.email ui = Some e -> e <> "" -> Xero.sub ui = Some s -> s <> "" ->
  s <> e ->
  fst (fst (callback env up now req srv))
  = {| status := 200; body := TokensBody d (Some ui) (tenants up d) (Some e) |}
  /\ tokenStore (snd (fst (callback env up now req srv))) !! e
     = Some {| s_access_token := Xero.access_token d;
               s_refresh_token := Xero.refresh_token d;
               expires_at :=
                 js_add (Num (now 0%nat))
                        (js_mul (to_number (Xero.expires_in d)) (Num 1000));
               s_tenant_id := tenant_id (tokensToStore env up d);
               stored_at := now 1%nat |}
  /\ tokenStore (snd (fst (callback env up now req srv))) !! s
     = Some {| s_access_token := Xero.access_token d;
               s_refresh_token := Xero.refresh_token d;
               expires_at :=
                 js_add (Num (now 2%nat))
                        (js_mul (to_number (Xero.expires_in d)) (Num 1000));
               s_tenant_id := tenant_id (tokensToStore env up d);
               stored_at := now 3%nat |}
  /\ forall other, other <> e -> other <> s ->
       tokenStore (snd (fst (callback env up now req srv))) !! other
       = tokenStore srv !! other.
Proof.
  intros Hc Hout Hlen H1 N1 H2 N2 H3 N3 Hres Hui He Hene Hs Hsne Hdiff.
  pose proof (configured_Some _ _ _ _ H1 N1 H2 N2 H3 N3) as Hconf.
  rewrite (callback_exchange _ _ _ _ _ _ _ _ _ Hc Hout Hlen Hconf), Hres.
  cbn [fst snd]. rewrite exchange_succeeded_persist, Hui.
  rewrite (persist_email_and_sub _ _ _ _ _ _ _ _ He Hene Hs Hsne Hdiff).
  cbn [fst snd tokenStore marked].
  split; [reflexivity|]. split; [|split].
  - rewrite storeUserTokens_other by exact Hdiff.
    apply (persisted_lookup env up now d 0).
  - apply (persisted_lookup env up now d 2).
  - intros other Ho1 Ho2.
    rewrite !storeUserTokens_other by congruence. reflexivity.
Qed.

(** From the exchange to the use of the tokens: after such a callback, an
    authenticated request identified by the email or by the subject is
    handed, until the tokens expire, the access token the provider issued. *)
Theorem callback_then_message env up now req srv c
    client_id client_secret callback_url d ui e s a user t k :
  req_code req = Some c -> c ∉ usedCodes srv -> (10 <= js_length c)%nat ->
  XERO_CLIENT_ID env = Some client_id -> client_id <> "" ->
  XERO_CLIENT_SECRET env = Some client_secret -> client_secret <> "" ->
  XERO_CALLBACK_URL env = Some callback_url -> callback_url <> "" ->
  token_endpoint up
    {| grant_type := "authorization_code"; code := c;
       redirect_uri := callback_url; basic_user := client_id;
       basic_password := client_secret |} = Resolved d ->
  user_info up d = Some ui ->
  Xero.email ui = Some e -> e <> "" -> Xero.sub ui = Some s -> s <> "" ->
  s <> e ->
  Xero.access_token d = Some a -> a <> "" ->
  (forall l, Xero.expires_in d = Some l ->
             t < now 0%nat + l * 1000 /\ t < now 2%nat + l * 1000) ->
  request_user_id user = Some k -> k = e \/ k = s ->
  fst (message_credentials t user
         (tokenStore (snd (fst (callback env up now req srv)))))
  = Forward k a.
Proof.
  intros Hc Hout Hlen H1 N1 H2 N2 H3 N3 Hres Hui He Hene Hs Hsne Hdiff Ha Hane Hlife Hk Hes.
  pose proof (configured_Some _ _ _ _ H1 N1 H2 N2 H3 N3) as Hconf.
  rewrite (callback_exchange _ _ _ _ _ _ _ _ _ Hc Hout Hlen Hconf), Hres.
  cbn [fst snd]. rewrite exchange_succeeded_persist, Hui.
  rewrite (persist_email_and_sub _ _ _ _ _ _ _ _ He Hene Hs Hsne Hdiff).
  cbn [fst snd tokenStore marked].
  assert (Hkne : k <> "") by (destruct Hes; subst; assumption).
  unfold message_credentials. rewrite Hk.
  rewrite (truthy_str_nonempty _ Hkne). cbn [negb].
  assert (Hlive : forall j, (j = 0 \/ j = 2)%nat ->
            js_ge (Num t)
              (js_add (Num (now j))
                 (js_mul (to_number (Xero.expires_in d)) (Num 1000))) = false).
  { intros j Hj. destruct (Xero.expires_in d) as [l|]; simpl; [|reflexivity].
    apply not_true_is_false. rewrite Z.geb_le.
    destruct (Hlife l eq_refl). destruct Hj; subst; lia. }
  unfold getAccessToken. destruct Hes as [-> | ->].
  - erewrite getUserTokens_live;
      [| rewrite storeUserTokens_other by exact Hdiff;
         apply (persisted_lookup env up now d 0)
       | apply Hlive; auto].
    cbn [s_access_token]. rewrite Ha, (truthy_str_nonempty _ Hane). reflexivity.
  - erewrite getUserTokens_live;
      [| apply (persisted_lookup env up now d 2) | apply Hlive; auto].
    cbn [s_access_token]. rewrite Ha, (truthy_str_nonempty _ Hane). reflexivity.
Qed.

End XeroPersistence.

Section StoreTokensMore.

Import TokenStore Xero.

(** POST /store-tokens refuses with 400 exactly when [userId] or
    [access_token] is missing or empty, and then changes nothing; when it
    stores, it writes the record of that one user: the used codes and the
    tokens of every other user are as before. *)
Theorem store_tokens_touches_one_record env now_e now_s req srv :
  (status (fst (store_tokens env now_e now_s req srv)) = 400 <->
   truthy_str (st_userId req) = false
   \/ truthy_str (st_access_token req) = false)
  /\ (status (fst (store_tokens env now_e now_s req srv)) = 400 ->
      snd (store_tokens env now_e now_s req srv) = srv)
  /\ usedCodes (snd (store_tokens env now_e now_s req srv)) = usedCodes srv
  /\ forall other, st_userId req <> Some other ->
       tokenStore (snd (store_tokens env now_e now_s req srv)) !! other
       = tokenStore srv !! other.
Proof.
  unfold store_tokens. destruct (st_userId req) as [u|].
  - destruct (truthy_str (Some u)) eqn:Eu;
      destruct (truthy_str (st_access_token req)) eqn:Ea; cbn [negb orb fst snd];
      try (split; [split; [auto | reflexivity] | auto]).
    split; [split; [discriminate | intros [H|H]; discriminate H]|].
    split; [discriminate|]. split; [reflexivity|].
    intros other Ho. cbn [tokenStore].
    apply storeUserTokens_other. congruence.
  - cbn [fst snd]. split; [split; [auto | reflexivity] | auto].
Qed.

(** The lifetime a client asks for is taken as given unless it is zero: an
    [expires_in] of 0 is replaced by the default 1800 seconds, while a
    negative one is stored as it is, so that the request is answered with
    success although the tokens can never be read back. *)
Theorem store_tokens_lifetime_edges env now_e now_s req srv userId tok :
  st_userId req = Some userId -> userId <> "" ->
  st_access_token req = Some tok -> tok <> "" ->
  status (fst (store_tokens env now_e now_s req srv)) = 200
  /\ (st_expires_in req = Some 0 ->
      expires_at <$> (tokenStore (snd (store_tokens env now_e now_s req srv))
                        !! userId)
      = Some (Num (now_e + 1800 * 1000)))
  /\ (forall e now, st_expires_in req = Some e -> e < 0 -> now_e <= now ->
        fst (getUserTokens now userId
               (tokenStore (snd (store_tokens env now_e now_s req srv))))
        = None).
Proof.
  intros Hu Hune Ht Htne. unfold store_tokens. rewrite Hu, Ht.
  rewrite !truthy_str_nonempty by assumption. cbn [negb orb fst snd tokenStore].
  split; [reflexivity|]. split.
  - intros H0. rewrite storeUserTokens_lookup, H0. reflexivity.
  - intros e now He Hneg Hnow.
    erewrite getUserTokens_expired; [reflexivity | apply storeUserTokens_lookup |].
    unfold expired. cbn [expires_at TokenStore.expires_in]. rewrite He.
    unfold or_num, truthy_num.
    assert (Hz : (e =? 0) = false) by (apply Z.eqb_neq; lia).
    rewrite Hz. cbn [negb to_number js_mul js_add js_ge].
    apply Z.geb_le. nia.
Qed.

End StoreTokensMore.

(** ** The authorization URL *)

Section AuthUrlMore.

Import Xero.

Lemma count_char_append (c : ascii) (a b : string) :
  count_char c (a +:+ b) = (count_char c a + count_char c b)%nat.
Proof.
  induction a as [|x a IH]; [reflexivity|].
  change (String x a +:+ b) with (String x (a +:+ b)).
  cbn [count_char]. rewrite IH. lia.
Qed.

Lemma hex_digit_form_safe (n : Z) : form_safe (hex_digit n) = true.
Proof.
  unfold hex_digit. generalize (Z.to_nat n). intros k.
  do 16 (destruct k as [|k]; [reflexivity|]). reflexivity.
Qed.

Lemma Ascii_eqb_false_of_form_safe (x c : ascii) :
  form_safe c = false -> form_safe x = true -> Ascii.eqb x c = false.
Proof.
  intros Hc Hx. destruct (Ascii.eqb x c) eqn:E; [|reflexivity].
  apply Ascii.eqb_eq in E. subst. congruence.
Qed.

(** No encoded byte contains a character that the encoder would escape,
    except the [+] and the [%] it writes itself. *)
Lemma count_char_urlencode (c : ascii) (s : string) :
  form_safe c = false -> c <> "+"%char -> c <> "%"%char ->
  count_char c (urlencode s) = 0%nat.
Proof.
  intros Hc Hplus Hpct. induction s as [|x s IH]; [reflexivity|].
  cbn [urlencode]. rewrite count_char_append, IH, Nat.add_0_r.
  unfold urlencode_byte. destruct (form_safe x) eqn:Ex.
  - cbn [count_char]. rewrite (Ascii_eqb_false_of_form_safe _ _ Hc Ex).
    reflexivity.
  - destruct (Z.of_N (N_of_ascii x) =? 32).
    + cbn [count_char].
      assert (H : Ascii.eqb "+"%char c = false) by (apply Ascii.eqb_neq; congruence).
      rewrite H. reflexivity.
    + cbn [count_char].
      assert (H : Ascii.eqb "%"%char c = false) by (apply Ascii.eqb_neq; congruence).
      rewrite H.
      rewrite !(Ascii_eqb_false_of_form_safe _ _ Hc (hex_digit_form_safe _)).
      reflexivity.
Qed.

(** Whatever client id, callback URL and scopes are configured, and whatever
    the random state, the authorization URL of GET /auth has one [?], four
    [&] and five [=]: the five parameters the handler appends, and no value
    can add, split or cut short a parameter. *)
Theorem auth_url_has_five_parameters env r1 r2 client_id callback_url :
  XERO_CLIENT_ID env = Some client_id -> client_id <> "" ->
  XERO_CALLBACK_URL env = Some callback_url -> callback_url <> "" ->
  exists authUrl,
    auth env r1 r2
    = {| status := 200; body := AuthBody authUrl (make_state r1 r2) |}
    /\ count_char "?" authUrl = 1%nat
    /\ count_char "&" authUrl = 4%nat
    /\ count_char "=" authUrl = 5%nat
    /\ count_char "#" authUrl = 0%nat.
Proof.
  intros Hc Hcne Hu Hune. unfold auth. rewrite Hc, Hu.
  rewrite !truthy_str_nonempty by assumption. cbn [negb orb].
  eexists. split; [reflexivity|].
  rewrite authorize_url.
  repeat split; rewrite !count_char_append;
    rewrite !count_char_urlencode by (reflexivity || discriminate);
    reflexivity.
Qed.

End AuthUrlMore.

(** ** The routes behind the middleware *)

Section RoutesMore.

Import TokenStore Middleware Routes.

Variable jwt_decode : string -> option Payload.

Implicit Types (user : User) (st : gmap string Stored).

Lemma accepted_request_user now authHeader user :
  authenticateToken jwt_decode now authHeader = Next user ->
  exists uid, uid <> "" /\ user_id user = Some uid
              /\ request_user_id user = Some uid
              /\ truthy_str (user_email user) = true.
Proof.
  intros H. apply authenticateToken_Next in H as (tok & _ & _ & H).
  apply accepted_user_fields in H as (uid & H1 & H2 & H3 & H4 & _). eauto.
Qed.

(** GET /status reports the authenticated user under the identifier the
    middleware derived and looks the Xero tokens up under that identifier;
    its [hasXeroTokens] is whatever [hasValidTokens] returns there, truthy
    exactly when a live record with a non-empty access token exists. *)
Theorem status_reports_the_authenticated_user now authHeader user t name st :
  authenticateToken jwt_decode now authHeader = Next user ->
  exists uid,
    user_id user = Some uid
    /\ status_id (fst (status t user name st)) = Some uid
    /\ status_email (fst (status t user name st)) = user_email user
    /\ authenticated (fst (status t user name st)) = true
    /\ hasXeroTokens (fst (status t user name st))
       = fst (hasValidTokens t uid st)
    /\ snd (status t user name st) = snd (getUserTokens t uid st)
    /\ (truthy (hasXeroTokens (fst (status t user name st))) = true <->
        exists r, fst (getUserTokens t uid st) = Some r
                  /\ truthy_str (s_access_token r) = true).
Proof.
  intros H. apply accepted_request_user in H as (uid & Hne & Hid & Hreq & Hem).
  exists uid. split; [exact Hid|].
  unfold status. rewrite Hreq.
  assert (Hst : snd (hasValidTokens t uid st) = snd (getUserTokens t uid st)).
  { unfold hasValidTokens. destruct (getUserTokens t uid st). reflexivity. }
  destruct (hasValidTokens t uid st) as [v st'] eqn:Ev. cbn [fst snd] in *.
  split; [reflexivity|]. split; [apply or_str_truthy_l; exact Hem|].
  split; [reflexivity|]. split; [reflexivity|]. split; [exact Hst|].
  cbn [hasXeroTokens].
  pose proof (hasValidTokens_truthy t uid st) as Hiff.
  rewrite Ev in Hiff. exact Hiff.
Qed.

(** POST /message never refuses an authenticated request for want of a user
    identifier: it hands the request on, with the access token stored under
    the middleware's identifier, when that user has a live record with a
    non-empty access token, and answers 401 otherwise. *)
Theorem message_needs_stored_tokens now authHeader user t st :
  authenticateToken jwt_decode now authHeader = Next user ->
  exists uid,
    user_id user = Some uid
    /\ snd (message_credentials t user st) = snd (getUserTokens t uid st)
    /\ ((exists r a, fst (getUserTokens t uid st) = Some r
                     /\ s_access_token r = Some a /\ a <> ""
                     /\ fst (message_credentials t user st) = Forward uid a)
        \/ ((forall r, fst (getUserTokens t uid st) = Some r ->
                       truthy_str (s_access_token r) = false)
            /\ fst (message_credentials t user st)
               = Refused 401 XeroAuthenticationRequired)).
Proof.
  intros H. apply accepted_request_user in H as (uid & Hne & Hid & Hreq & _).
  exists uid. split; [exact Hid|].
  unfold message_credentials, getAccessToken. rewrite Hreq.
  rewrite (truthy_str_nonempty _ Hne). cbn [negb].
  destruct (getUserTokens t uid st) as [[r|] st'] eqn:Eg; cbn [fst snd].
  - destruct (s_access_token r) as [a|] eqn:Ea.
    + destruct (truthy_str (Some a)) eqn:Et; cbn [fst snd].
      * split; [reflexivity|]. left. exists r, a.
        apply truthy_str_Some in Et as (a' & [= <-] & Hane). auto.
      * split; [reflexivity|]. right. split; [|reflexivity].
        intros r' [= <-]. rewrite Ea. exact Et.
    + split; [reflexivity|]. right. split; [|reflexivity].
      intros r' [= <-]. rewrite Ea. reflexivity.
  - split; [reflexivity|]. right. split; [|reflexivity].
    intros r' Hr. discriminate Hr.
Qed.

(** POST /set-xero-token stores the tokens of the body under the identifier
    the middleware derived, and its answer carries, as [hasValidTokens],
    the access token that was just stored. *)
Theorem set_xero_token_stores_for_the_user env now authHeader user
    now_e now_s now_h body st a lifetime :
  authenticateToken jwt_decode now authHeader = Next user ->
  sx_access_token body = Some a -> a <> "" ->
  or_num (sx_expires_in body) 1800 = Some lifetime ->
  now_h < now_e + lifetime * 1000 ->
  exists uid,
    user_id user = Some uid
    /\ fst (set_xero_token env now_e now_s now_h user body st)
       = SetStored ("Xero token stored for user " +:+ uid) (JStr a)
    /\ snd (set_xero_token env now_e now_s now_h user body st) !! uid
       = Some {| s_access_token := Some a;
                 s_refresh_token := sx_refresh_token body;
                 expires_at := Num (now_e + lifetime * 1000);
                 s_tenant_id :=
                   or_str (sx_tenant_id body) (Xero.XERO_TENANT_ID env);
                 stored_at := now_s |}
    /\ forall other, other <> uid ->
         snd (set_xero_token env now_e now_s now_h user body st) !! other
         = st !! other.
Proof.
  intros H Ha Hane Hl Hlife.
  apply accepted_request_user in H as (uid & Hne & Hid & Hreq & _).
  exists uid. split; [exact Hid|].
  unfold set_xero_token. rewrite Hreq, Ha.
  rewrite !truthy_str_nonempty by assumption. cbn [negb].
  unfold hasValidTokens.
  erewrite getUserTokens_live; [| apply storeUserTokens_lookup |].
  - cbn [fst snd s_access_token TokenStore.access_token of_property].
    split; [reflexivity|]. split.
    + rewrite storeUserTokens_lookup.
      cbn [TokenStore.access_token TokenStore.refresh_token
           TokenStore.expires_in TokenStore.tenant_id].
      rewrite Hl. reflexivity.
    + intros other Ho. apply storeUserTokens_other. congruence.
  - cbn [expires_at TokenStore.expires_in]. rewrite Hl.
    cbn [to_number js_mul js_add js_ge].
    apply not_true_is_false. rewrite Z.geb_le. lia.
Qed.

(** [createInvoice] never calls Xero under an empty tenant. It takes its
    argument when that is non-empty, without reading the token store;
    otherwise, for a user, the tenant [getTenantId] returns for that user
    when it is non-empty; and in every other case [XERO_TENANT_ID] or,
    failing that, the tenant written in the source. *)
Theorem createInvoice_tenant_precedence env now xeroTenantId userId st :
  truthy_str (fst (createInvoice_tenant env now xeroTenantId userId st)) = true
  /\ (truthy_str xeroTenantId = true ->
      createInvoice_tenant env now xeroTenantId userId st
      = (xeroTenantId, st))
  /\ (forall u, truthy_str xeroTenantId = false ->
        userId = Some u -> u <> "" ->
        createInvoice_tenant env now xeroTenantId userId st
        = (if truthy_str (fst (getTenantId now u st))
           then fst (getTenantId now u st)
           else if truthy_str (Xero.XERO_TENANT_ID env)
                then Xero.XERO_TENANT_ID env
                else Some "c8b88426-261c-409a-8258-d9c3fb365d76",
           snd (getTenantId now u st)))
  /\ (truthy_str xeroTenantId = false -> truthy_str userId = false ->
      createInvoice_tenant env now xeroTenantId userId st
      = (if truthy_str (Xero.XERO_TENANT_ID env)
         then Xero.XERO_TENANT_ID env
         else Some "c8b88426-261c-409a-8258-d9c3fb365d76",
         st)).
Proof.
  assert (Hfb : truthy_str (or_str (Xero.XERO_TENANT_ID env)
                              (Some fallback_tenant)) = true).
  { unfold or_str.
    destruct (truthy_str (Xero.XERO_TENANT_ID env)) eqn:E; [exact E | reflexivity]. }
  unfold createInvoice_tenant.
  destruct (truthy_str xeroTenantId) eqn:Ex; cbn [negb andb].
  - rewrite Ex. cbn [negb fst].
    split; [exact Ex|]. split; [reflexivity|].
    split; [intros u H; discriminate H | intros H; discriminate H].
  - destruct (truthy_str userId) eqn:Eu.
    + destruct userId as [u|]; [|discriminate Eu].
      destruct (getTenantId now u st) as [t st'] eqn:Eg.
      destruct (truthy_str t) eqn:Et; cbn [negb fst].
      * split; [exact Et|]. split; [intros H; discriminate H|].
        split; [|intros _ H; discriminate H].
        intros u' _ [= <-] _. rewrite Eg. cbn [fst snd]. rewrite Et.
        reflexivity.
      * split; [exact Hfb|]. split; [intros H; discriminate H|].
        split; [|intros _ H; discriminate H].
        intros u' _ [= <-] _. rewrite Eg. cbn [fst snd]. rewrite Et.
        reflexivity.
    + rewrite Ex. cbn [negb fst].
      split; [exact Hfb|]. split; [intros H; discriminate H|].
      split; [|reflexivity].
      intros u _ -> Hne. rewrite (truthy_str_nonempty _ Hne) in Eu.
      discriminate Eu.
Qed.

End RoutesMore.

Section MoreExamples.

Import TokenStore Routes Xero CallbackParts.

Lemma fresh_sample_code : "code-0123456789" ∉ usedCodes initial.
Proof. simpl. apply not_elem_of_empty. Qed.

Lemma callback_other_codes_witness :
  "other-code-0123" ∈ usedCodes
     (snd (fst (callback Samples.env Samples.provider_down Samples.clock
                  Samples.code_request (marked "other-code-0123" initial)))).
Proof.
  apply (callback_other_codes Samples.env Samples.provider_down Samples.clock
           Samples.code_request (marked "other-code-0123" initial)
           "other-code-0123").
  - discriminate.
  - simpl. apply elem_of_union_l, elem_of_singleton. reflexivity.
Defined.

Lemma callback_failure_keeps_tokens_witness :
  tokenStore (snd (fst (callback Samples.env Samples.provider_down
                          Samples.clock Samples.code_request initial)))
  = tokenStore initial.
Proof.
  apply (callback_failure_keeps_tokens Samples.env Samples.provider_down
           Samples.clock Samples.code_request initial).
  rewrite (callback_exchange Samples.env Samples.provider_down Samples.clock
             Samples.code_request initial "code-0123456789" "abc123" "secret"
             "https://app.test/callback" eq_refl fresh_sample_code
             ltac:(simpl; lia) eq_refl).
  reflexivity.
Defined.

Lemma callback_misconfigured_burns_code_witness :
  callback Samples.env_without_secret Samples.provider Samples.clock
    Samples.code_request initial
  = (misconfigured, marked "code-0123456789" initial, [])
  /\ callback Samples.env Samples.provider Samples.clock Samples.code_request
       (marked "code-0123456789" initial)
     = (code_already_used, marked "code-0123456789" initial, []).
Proof.
  destruct (callback_misconfigured_burns_code Samples.env_without_secret
              Samples.provider Samples.clock Samples.code_request initial
              "code-0123456789" eq_refl fresh_sample_code ltac:(simpl; lia)
              ltac:(right; left; reflexivity)) as (H1 & _ & H2).
  split; [exact H1 | apply H2].
Defined.

Lemma sweep_reopens_used_codes_witness :
  is_success
    (fst (fst (callback Samples.env Samples.provider Samples.clock
                 Samples.code_request
                 (sweep (marked "code-0123456789" initial))))) = true.
Proof.
  destruct (sweep_reopens_used_codes Samples.env Samples.provider Samples.clock
              Samples.code_request (marked "code-0123456789" initial)
              "code-0123456789" "abc123" "secret" "https://app.test/callback"
              eq_refl
              ltac:(simpl; apply elem_of_union_l, elem_of_singleton; reflexivity)
              ltac:(simpl; lia) eq_refl ltac:(discriminate) eq_refl ltac:(discriminate)
              eq_refl ltac:(discriminate)) as (_ & _ & H).
  apply (H Samples.token_data). reflexivity.
Defined.

Lemma callback_without_id_token_stores_nothing_witness :
  tokenStore (snd (fst (callback Samples.env Samples.provider_without_id
                          Samples.clock Samples.code_request initial)))
  = tokenStore initial.
Proof.
  apply (callback_without_id_token_stores_nothing Samples.env
           Samples.provider_without_id Samples.clock Samples.code_request
           initial "code-0123456789" "abc123" "secret"
           "https://app.test/callback" Samples.token_data_without_id
           eq_refl fresh_sample_code ltac:(simpl; lia)
           eq_refl ltac:(discriminate) eq_refl ltac:(discriminate)
           eq_refl ltac:(discriminate) eq_refl eq_refl).
Defined.

Lemma callback_stores_under_email_and_sub_witness :
  s_access_token
    <$> (tokenStore (snd (fst (callback Samples.env Samples.provider
                                 Samples.clock Samples.code_request initial)))
           !! "sub-1")
  = Some (Some "tok").
Proof.
  destruct (callback_stores_under_email_and_sub Samples.env Samples.provider
              Samples.clock Samples.code_request initial "code-0123456789"
              "abc123" "secret" "https://app.test/callback" Samples.token_data
              Samples.identity "user@example.com" "sub-1"
              eq_refl fresh_sample_code ltac:(simpl; lia)
              eq_refl ltac:(discriminate) eq_refl ltac:(discriminate)
              eq_refl ltac:(discriminate)
              eq_refl
              eq_refl eq_refl ltac:(discriminate) eq_refl ltac:(discriminate)
              ltac:(discriminate)) as (_ & _ & H & _).
  rewrite H. reflexivity.
Defined.

Lemma callback_then_message_witness :
  fst (message_credentials 2000 Samples.user
         (tokenStore (snd (fst (callback Samples.env Samples.provider
                                  Samples.clock Samples.code_request initial)))))
  = Forward "user@example.com" "tok".
Proof.
  apply (callback_then_message Samples.env Samples.provider Samples.clock
           Samples.code_request initial "code-0123456789" "abc123" "secret"
           "https://app.test/callback" Samples.token_data Samples.identity
           "user@example.com" "sub-1" "tok" Samples.user 2000
           "user@example.com"
           eq_refl fresh_sample_code ltac:(simpl; lia)
           eq_refl ltac:(discriminate) eq_refl ltac:(discriminate)
           eq_refl ltac:(discriminate) eq_refl
           eq_refl eq_refl ltac:(discriminate) eq_refl ltac:(discriminate)
           ltac:(discriminate) eq_refl ltac:(discriminate)).
  - intros l [= <-]. unfold Samples.clock. simpl. lia.
  - reflexivity.
  - left. reflexivity.
Defined.

Lemma store_tokens_lifetime_edges_witness :
  let req := {| st_userId := Some "user@example.com";
                st_access_token := Some "tok"; st_refresh_token := None;
                st_expires_in := Some (-60); st_tenant_id := None |} in
  status (fst (store_tokens Samples.env 1000 1000 req initial)) = 200
  /\ fst (getUserTokens 1000 "user@example.com"
            (tokenStore (snd (store_tokens Samples.env 1000 1000 req initial))))
     = None.
Proof.
  intros req.
  destruct (store_tokens_lifetime_edges Samples.env 1000 1000 req initial
              "user@example.com" "tok" eq_refl ltac:(discriminate) eq_refl
              ltac:(discriminate)) as (H1 & _ & H2).
  split; [exact H1|]. apply (H2 (-60)); [reflexivity | lia | lia].
Defined.

Lemma auth_url_has_five_parameters_witness :
  let env := {| XERO_CLIENT_ID := Some "abc&state=1";
                XERO_CLIENT_SECRET := None;
                XERO_CALLBACK_URL := Some "https://app.test/cb?x=1#top";
                XERO_SCOPES := Some "openid email";
                XERO_TENANT_ID := None |} in
  exists authUrl,
    auth env "0.4fzyo82mvyr" "0.8k2j5h1x9q"
    = {| status := 200;
         body := AuthBody authUrl (make_state "0.4fzyo82mvyr" "0.8k2j5h1x9q") |}
    /\ count_char "&" authUrl = 4%nat.
Proof.
  intros env.
  destruct (auth_url_has_five_parameters env "0.4fzyo82mvyr" "0.8k2j5h1x9q"
              "abc&state=1" "https://app.test/cb?x=1#top"
              eq_refl ltac:(discriminate) eq_refl ltac:(discriminate))
    as (authUrl & H1 & _ & H2 & _).
  exists authUrl. split; assumption.
Defined.

Lemma status_reports_the_authenticated_user_witness :
  status_id (fst (Routes.status 2000 Samples.user None ∅))
  = Some "user@example.com".
Proof.
  destruct (status_reports_the_authenticated_user Samples.decoder 0
              Samples.header Samples.user 2000 None ∅ eq_refl)
    as (uid & Hid & H & _).
  injection Hid as <-. exact H.
Defined.

Lemma message_needs_stored_tokens_witness :
  fst (message_credentials 2000 Samples.user ∅)
  = Refused 401 XeroAuthenticationRequired.
Proof.
  destruct (message_needs_stored_tokens Samples.decoder 0 Samples.header
              Samples.user 2000 ∅ eq_refl)
    as (uid & Hid & _ & [(r & a & Hr & _) | (_ & H)]).
  - injection Hid as <-. discriminate Hr.
  - exact H.
Defined.

Lemma set_xero_token_stores_for_the_user_witness :
  let body := {| sx_access_token := Some "tok"; sx_refresh_token := None;
                 sx_expires_in := None; sx_tenant_id := None |} in
  fst (set_xero_token Samples.env 1000 1000 1000 Samples.user body ∅)
  = SetStored "Xero token stored for user user@example.com" (JStr "tok").
Proof.
  intros body.
  destruct (set_xero_token_stores_for_the_user Samples.decoder Samples.env 0
              Samples.header Samples.user 1000 1000 1000 body ∅ "tok" 1800
              eq_refl eq_refl ltac:(discriminate) eq_refl ltac:(lia))
    as (uid & Hid & H & _).
  injection Hid as <-. exact H.
Defined.

End MoreExamples.

Section TokensStatusMore.

Import TokenStore Xero.

(** GET /tokens/status refuses with 400 when [userId] is missing or empty
    and otherwise answers 200; it never writes: the used codes are as
    before, and the token store changes only by the eviction of the queried
    user's expired record. Its [hasValidTokens] is truthy exactly when that
    user has a live record with a non-empty access token. *)
Theorem tokens_status_only_evicts now userId srv :
  usedCodes (snd (tokens_status now userId srv)) = usedCodes srv
  /\ (truthy_str userId = false ->
      tokens_status now userId srv
      = ({| status := 400; body := ErrorBody "userId is required" None |}, srv))
  /\ (forall u, userId = Some u -> u <> "" ->
        tokenStore (snd (tokens_status now userId srv))
        = snd (getUserTokens now u (tokenStore srv))
        /\ exists v,
             fst (tokens_status now userId srv)
             = {| status := 200; body := StatusBody v u |}
             /\ (truthy v = true <->
                 exists r, fst (getUserTokens now u (tokenStore srv)) = Some r
                           /\ truthy_str (s_access_token r) = true)).
Proof.
  unfold tokens_status. destruct userId as [u|].
  - destruct (truthy_str (Some u)) eqn:Eu; cbn [negb].
    + pose proof (hasValidTokens_truthy now u (tokenStore srv)) as Hiff.
      assert (Hst : snd (hasValidTokens now u (tokenStore srv))
                    = snd (getUserTokens now u (tokenStore srv))).
      { unfold hasValidTokens.
        destruct (getUserTokens now u (tokenStore srv)). reflexivity. }
      destruct (hasValidTokens now u (tokenStore srv)) as [v st'].
      cbn [fst snd usedCodes tokenStore] in *.
      split; [reflexivity|]. split; [intros H; discriminate H|].
      intros u' [= <-] _. split; [exact Hst|].
      exists v. split; [reflexivity | exact Hiff].
    + cbn [snd]. split; [reflexivity|]. split; [reflexivity|].
      intros u' [= <-] Hne. rewrite (truthy_str_nonempty _ Hne) in Eu.
      discriminate Eu.
  - cbn [snd]. split; [reflexivity|]. split; [reflexivity|].
    intros u' H. discriminate H.
Qed.

End TokensStatusMore.
